(** * Radio-operation control core of basicmac (src/lmic/radio.c)

    A shallow embedding of [radio.c]: the file-scoped [state] record, the
    Stop/Reset routine, the guard timeout, the interrupt top and bottom half
    and the mode dispatcher [os_radio], as commands of a small state and
    failure monad over an explicit machine state.  Every call into a
    collaborator (HAL, radio driver, job scheduler, debug output) and every
    assignment to [state] or [LMIC] is appended to an effect trace, so that
    statements about the order of effects can be made next to statements
    about the resulting state. *)

From Stdlib Require Import ZArith List Lia Bool String.
Import ListNotations.
Open Scope Z_scope.

(** ** Machine integers *)

Definition u1_t := Z.
Definition ostime_t := Z.
Definition rps_t := Z.

(** [ostime_t] is a signed 32-bit tick counter; arithmetic on it wraps. *)
Definition wrap32 (z : Z) : Z := (z + 2 ^ 31) mod 2 ^ 32 - 2 ^ 31.

Definition ostime_add (a b : ostime_t) : ostime_t := wrap32 (a + b).
Definition ostime_mul (a b : ostime_t) : ostime_t := wrap32 (a * b).
(** C division truncates toward zero. *)
Definition ostime_div (a b : ostime_t) : ostime_t := Z.quot a b.

(** ** Board configuration (src/target/arduino/hal/target-config.h) *)

Definition US_PER_OSTICK_EXPONENT : Z := 4.
Definition US_PER_OSTICK : Z := Z.shiftl 1 US_PER_OSTICK_EXPONENT.
Definition OSTICKS_PER_SEC : Z := Z.quot 1000000 US_PER_OSTICK.
Definition DEBUG_TX : bool := true.
Definition DEBUG_RX : bool := true.

(** Modelled from the spec: the macro [ms2osticks] of oslmic.h is not under
    src/.  The spec speaks of durations in milliseconds added to tick times;
    the conversion is the number of whole ticks in [ms] milliseconds at
    [OSTICKS_PER_SEC] ticks per second. *)
Definition ms2osticks (ms : Z) : ostime_t :=
  wrap32 (Z.quot (ms * OSTICKS_PER_SEC) 1000).

(** ** Scheduler jobs *)

(** The job callbacks this file installs, and the preset callbacks of the
    MAC layer, which the core only passes on. *)
Inductive osjobcb_t : Type :=
| cb_null
| cb_radio_irq_timeout
| cb_radio_irq_func
| cb_mac (id : Z).

(** Modelled from the spec: the job scheduler (oslmic.c) is not under src/.
    A job slot holds at most one pending job: scheduling into an occupied
    slot replaces the pending job, cancelling clears it.  A pending job is
    either runnable as soon as the scheduler is free, or timed, with a
    deadline and the flag of a protected (interrupt-masked) callback. *)
Inductive jobstate : Type :=
| JobIdle
| JobRunnable
| JobTimed (deadline : ostime_t) (irqdisabled : bool).

Record osjob_t : Type := mk_osjob {
  func : osjobcb_t;
  pending : jobstate
}.

Inductive jobref : Type := state_irqjob | LMIC_osjob.

(** ** Hardware as seen through the HAL and the driver *)

(** Modelled from the spec: the antenna-switch positions of hal.h are not
    under src/; only [HAL_ANTSW_OFF] is used by radio.c. *)
Inductive antsw_t : Type :=
| HAL_ANTSW_OFF
| HAL_ANTSW_PATH (n : Z).

(** The operation the driver was last commanded to perform. *)
Inductive radio_op : Type :=
| OpSleep
| OpInit (calibrate : bool)
| OpTx (txcontinuous : bool)
| OpRx (rxcontinuous : bool)
| OpCw
| OpCca
| OpCad.

Record hw_t : Type := mk_hw {
  radio : radio_op;
  antsw : antsw_t;
  tcxo : Z;
  irqmask : Z;
  irqs_enabled : bool
}.

(** ** The state of radio.c and the part of [LMIC] it uses *)

Record radio_state : Type := mk_state {
  irqtime : ostime_t;
  irqjob : osjob_t;
  diomask : u1_t;
  txmode : u1_t
}.

Record lmic_t : Type := mk_lmic {
  osjob : osjob_t;
  rxtime : ostime_t;
  rps : rps_t;
  dataLen : u1_t
}.

Record machine : Type := mk_machine {
  state : radio_state;
  LMIC : lmic_t;
  hw : hw_t;
  clock : ostime_t
}.

(** ** Effect trace *)

Inductive field : Type :=
| state_irqtime
| state_diomask
| state_txmode
| LMIC_dataLen.

Inductive event : Type :=
| Ev_hal_disableIRQs
| Ev_hal_enableIRQs
| Ev_hal_ant_switch (v : antsw_t)
| Ev_hal_pin_tcxo (v : Z)
| Ev_hal_irqmask_set (m : Z)
| Ev_hal_failed
| Ev_radio_sleep
| Ev_radio_init (calibrate : bool)
| Ev_radio_starttx (txcontinuous : bool)
| Ev_radio_startrx (rxcontinuous : bool)
| Ev_radio_cw
| Ev_radio_cca
| Ev_radio_cad
| Ev_os_clearCallback (j : jobref)
| Ev_os_setCallback (j : jobref) (cb : osjobcb_t)
| Ev_os_setProtectedTimedCallback (j : jobref) (t : ostime_t) (cb : osjobcb_t)
| Ev_debug_printf (fmt : string)
| Ev_store (f : field) (v : Z).

Record world : Type := mk_world {
  mach : machine;
  log : list event
}.

(** ** Commands: state passing with fatal failure *)

Inductive outcome (A : Type) : Type :=
| Done (a : A) (w : world)
| Fatal (w : world).
Arguments Done {A} a w.
Arguments Fatal {A} w.

Definition Cmd (A : Type) : Type := world -> outcome A.

Definition ret {A : Type} (a : A) : Cmd A := fun w => Done a w.

Definition bind {A B : Type} (c : Cmd A) (k : A -> Cmd B) : Cmd B :=
  fun w => match c w with
           | Done a w' => k a w'
           | Fatal w' => Fatal w'
           end.

Declare Scope cmd_scope.
Delimit Scope cmd_scope with cmd.
Notation "x <- c ;; k" := (bind c (fun x => k))
  (at level 100, c at next level, right associativity) : cmd_scope.
Notation "c ;; k" := (bind c (fun _ => k))
  (at level 100, right associativity) : cmd_scope.
Open Scope cmd_scope.

Definition emit (e : event) : Cmd unit :=
  fun w => Done tt (mk_world (mach w) (log w ++ [e])).

Definition gets {A : Type} (f : machine -> A) : Cmd A :=
  fun w => Done (f (mach w)) w.

Definition modify (f : machine -> machine) : Cmd unit :=
  fun w => Done tt (mk_world (f (mach w)) (log w)).

(** *** Field updates *)

Definition with_state (f : radio_state -> radio_state) (m : machine) : machine :=
  mk_machine (f (state m)) (LMIC m) (hw m) (clock m).
Definition with_LMIC (f : lmic_t -> lmic_t) (m : machine) : machine :=
  mk_machine (state m) (f (LMIC m)) (hw m) (clock m).
Definition with_hw (f : hw_t -> hw_t) (m : machine) : machine :=
  mk_machine (state m) (LMIC m) (f (hw m)) (clock m).

Definition set_irqtime (v : ostime_t) (s : radio_state) : radio_state :=
  mk_state v (irqjob s) (diomask s) (txmode s).
Definition set_irqjob (j : osjob_t) (s : radio_state) : radio_state :=
  mk_state (irqtime s) j (diomask s) (txmode s).
Definition set_diomask (v : u1_t) (s : radio_state) : radio_state :=
  mk_state (irqtime s) (irqjob s) v (txmode s).
Definition set_txmode (v : u1_t) (s : radio_state) : radio_state :=
  mk_state (irqtime s) (irqjob s) (diomask s) v.

Definition set_osjob (j : osjob_t) (l : lmic_t) : lmic_t :=
  mk_lmic j (rxtime l) (rps l) (dataLen l).
Definition set_dataLen (v : u1_t) (l : lmic_t) : lmic_t :=
  mk_lmic (osjob l) (rxtime l) (rps l) v.

Definition set_radio (o : radio_op) (h : hw_t) : hw_t :=
  mk_hw o (antsw h) (tcxo h) (irqmask h) (irqs_enabled h).
Definition set_antsw (v : antsw_t) (h : hw_t) : hw_t :=
  mk_hw (radio h) v (tcxo h) (irqmask h) (irqs_enabled h).
Definition set_tcxo (v : Z) (h : hw_t) : hw_t :=
  mk_hw (radio h) (antsw h) v (irqmask h) (irqs_enabled h).
Definition set_irqmask (v : Z) (h : hw_t) : hw_t :=
  mk_hw (radio h) (antsw h) (tcxo h) v (irqs_enabled h).
Definition set_irqs_enabled (b : bool) (h : hw_t) : hw_t :=
  mk_hw (radio h) (antsw h) (tcxo h) (irqmask h) b.

(** Assignments of radio.c to [state] and [LMIC]. *)
Definition store (f : field) (v : Z) : Cmd unit :=
  emit (Ev_store f v) ;;
  modify (match f with
          | state_irqtime => with_state (set_irqtime v)
          | state_diomask => with_state (set_diomask v)
          | state_txmode => with_state (set_txmode v)
          | LMIC_dataLen => with_LMIC (set_dataLen v)
          end).

(** ** Collaborators *)

Module HAL.

(** Modelled from the spec: the hardware abstraction layer is not under
    src/.  Its contract is [disableInterrupts], [enableInterrupts],
    [setAntennaSwitch], [setTCXOPower] and [setInterruptMask]; each sets the
    corresponding part of the hardware state. *)
Definition hal_disableIRQs : Cmd unit :=
  emit Ev_hal_disableIRQs ;; modify (with_hw (set_irqs_enabled false)).
Definition hal_enableIRQs : Cmd unit :=
  emit Ev_hal_enableIRQs ;; modify (with_hw (set_irqs_enabled true)).
Definition hal_ant_switch (v : antsw_t) : Cmd unit :=
  emit (Ev_hal_ant_switch v) ;; modify (with_hw (set_antsw v)).
Definition hal_pin_tcxo (v : Z) : Cmd unit :=
  emit (Ev_hal_pin_tcxo v) ;; modify (with_hw (set_tcxo v)).
Definition hal_irqmask_set (m : Z) : Cmd unit :=
  emit (Ev_hal_irqmask_set m) ;; modify (with_hw (set_irqmask m)).

(** Modelled from the spec: [hal_failed], reached from a failed [ASSERT],
    is not under src/.  A contract violation is fatal and halts execution. *)
Definition hal_failed {A : Type} : Cmd A :=
  fun w => Fatal (mk_world (mach w) (log w ++ [Ev_hal_failed])).

Definition os_getTime : Cmd ostime_t := gets clock.

End HAL.
Export HAL.

Definition ASSERT (cond : bool) : Cmd unit :=
  if cond then ret tt else hal_failed.

Module Driver.

(** Modelled from the spec: the radio driver is not under src/.  Its
    operations are synchronous calls that arm the hardware and return
    immediately; the model records the commanded operation. *)
Definition radio_sleep : Cmd unit :=
  emit Ev_radio_sleep ;; modify (with_hw (set_radio OpSleep)).
Definition radio_init (calibrate : bool) : Cmd unit :=
  emit (Ev_radio_init calibrate) ;; modify (with_hw (set_radio (OpInit calibrate))).
Definition radio_starttx (txcontinuous : bool) : Cmd unit :=
  emit (Ev_radio_starttx txcontinuous) ;; modify (with_hw (set_radio (OpTx txcontinuous))).
Definition radio_startrx (rxcontinuous : bool) : Cmd unit :=
  emit (Ev_radio_startrx rxcontinuous) ;; modify (with_hw (set_radio (OpRx rxcontinuous))).
Definition radio_cw : Cmd unit :=
  emit Ev_radio_cw ;; modify (with_hw (set_radio OpCw)).
Definition radio_cca : Cmd unit :=
  emit Ev_radio_cca ;; modify (with_hw (set_radio OpCca)).
Definition radio_cad : Cmd unit :=
  emit Ev_radio_cad ;; modify (with_hw (set_radio OpCad)).

End Driver.
Export Driver.

Module Scheduler.

Definition get_job (j : jobref) (m : machine) : osjob_t :=
  match j with
  | state_irqjob => irqjob (state m)
  | LMIC_osjob => osjob (LMIC m)
  end.

Definition put_job (j : jobref) (v : osjob_t) : machine -> machine :=
  match j with
  | state_irqjob => with_state (set_irqjob v)
  | LMIC_osjob => with_LMIC (set_osjob v)
  end.

(** Modelled from the spec: [cancel(slot)] clears a pending job if present. *)
Definition os_clearCallback (j : jobref) : Cmd unit :=
  emit (Ev_os_clearCallback j) ;;
  modify (fun m => put_job j (mk_osjob (func (get_job j m)) JobIdle) m).

(** Modelled from the spec: [scheduleCallback(slot, fn)] runs [fn] once, as
    soon as the scheduler context is free, and replaces any pending job. *)
Definition os_setCallback (j : jobref) (cb : osjobcb_t) : Cmd unit :=
  emit (Ev_os_setCallback j cb) ;;
  modify (put_job j (mk_osjob cb JobRunnable)).

(** Modelled from the spec: [scheduleProtectedCallback(slot, deadline, fn)]
    is like the above, with [fn] run interrupt-masked and not before
    [deadline]. *)
Definition os_setProtectedTimedCallback (j : jobref) (t : ostime_t)
    (cb : osjobcb_t) : Cmd unit :=
  emit (Ev_os_setProtectedTimedCallback j t cb) ;;
  modify (put_job j (mk_osjob cb (JobTimed t true))).

End Scheduler.
Export Scheduler.

Definition debug_printf (fmt : string) : Cmd unit := emit (Ev_debug_printf fmt).

(** ** radio.c *)

(** stop radio, disarm interrupts, cancel jobs *)
Definition radio_stop : Cmd unit :=
  hal_disableIRQs ;;
  radio_sleep ;;
  hal_ant_switch HAL_ANTSW_OFF ;;
  hal_pin_tcxo 0 ;;
  hal_irqmask_set 0 ;;
  os_clearCallback state_irqjob ;;
  store state_diomask 0 ;;
  hal_enableIRQs.

(** The radio modes of lmic.h (not under src/): the nine constants that
    label the cases of the [switch] in [os_radio]. *)
Class RadioModes : Type := {
  RADIO_STOP : u1_t;
  RADIO_TX : u1_t;
  RADIO_RX : u1_t;
  RADIO_RXON : u1_t;
  RADIO_TXCW : u1_t;
  RADIO_CCA : u1_t;
  RADIO_INIT : u1_t;
  RADIO_TXCONT : u1_t;
  RADIO_CAD : u1_t
}.

(** The two collaborators whose results radio.c computes with. *)
Class Externals : Type := {
  (** The driver's interrupt classification (radio driver, not under src/).
      It may read and write [LMIC], drive the HAL and re-arm the guard
      through [radio_set_irq_timeout], so it is an arbitrary command. *)
  radio_irq_process : ostime_t -> u1_t -> Cmd bool;
  (** Air time of a frame, computed by the MAC layer (not under src/). *)
  LMIC_calcAirTime : rps_t -> u1_t -> ostime_t
}.

Section Radio.

Context {modes : RadioModes} {ext : Externals}.

Definition radio_modes : list u1_t :=
  [RADIO_STOP; RADIO_TX; RADIO_RX; RADIO_RXON; RADIO_TXCW;
   RADIO_CCA; RADIO_INIT; RADIO_TXCONT; RADIO_CAD].

(** guard timeout in case no completion interrupt is generated by radio
    (protected job, runs with irqs disabled).  [BACKTRACE()] and the unused
    job argument have no effect and are left out, here and below. *)
Definition radio_irq_timeout : Cmd unit :=
  radio_stop ;;
  tx <- gets (fun m => txmode (state m)) ;;
  (if negb (tx =? 0) then radio_init true else ret tt) ;;
  hal_enableIRQs ;;
  debug_printf "WARNING: radio irq timeout!\r\n" ;;
  store LMIC_dataLen 0 ;;
  f <- gets (fun m => func (osjob (LMIC m))) ;;
  os_setCallback LMIC_osjob f.

Definition radio_set_irq_timeout (timeout : ostime_t) : Cmd unit :=
  os_setProtectedTimedCallback state_irqjob timeout cb_radio_irq_timeout.

(** (run by irqjob) *)
Definition radio_irq_func : Cmd unit :=
  t <- gets (fun m => irqtime (state m)) ;;
  d <- gets (fun m => diomask (state m)) ;;
  complete <- radio_irq_process t d ;;
  (if complete : bool then
     radio_stop ;;
     f <- gets (fun m => func (osjob (LMIC m))) ;;
     os_setCallback LMIC_osjob f
   else ret tt) ;;
  store state_diomask 0.

(** called by hal exti IRQ handler *)
Definition radio_irq_handler (diomask_arg : u1_t) (ticks : ostime_t) : Cmd unit :=
  d <- gets (fun m => diomask (state m)) ;;
  ASSERT (d =? 0) ;;
  store state_irqtime ticks ;;
  store state_diomask diomask_arg ;;
  os_setCallback state_irqjob cb_radio_irq_func.

Definition guard_margin (airtime : ostime_t) : ostime_t :=
  ostime_div (ostime_mul airtime 110) 100.

Definition os_radio (mode : u1_t) : Cmd unit :=
  if mode =? RADIO_STOP then
    radio_stop
  else if mode =? RADIO_TX then
    radio_stop ;;
    (if DEBUG_TX
     then debug_printf "TX[fcnt=%ld,freq=%.1F,sf=%d,bw=%d,pow=%d,len=%d%s]: %.80h\r\n"
     else ret tt) ;;
    radio_starttx false ;;
    store state_txmode 1 ;;
    now <- os_getTime ;;
    r <- gets (fun m => rps (LMIC m)) ;;
    len <- gets (fun m => dataLen (LMIC m)) ;;
    radio_set_irq_timeout
      (ostime_add (ostime_add now (ms2osticks 20))
                  (guard_margin (LMIC_calcAirTime r len)))
  else if mode =? RADIO_RX then
    radio_stop ;;
    (if DEBUG_RX
     then debug_printf "RX_MODE[freq=%.1F,sf=%d,bw=%s,rxtime=%.0F]\r\n"
     else ret tt) ;;
    radio_startrx false ;;
    store state_txmode 0 ;;
    rxt <- gets (fun m => rxtime (LMIC m)) ;;
    r <- gets (fun m => rps (LMIC m)) ;;
    radio_set_irq_timeout
      (ostime_add (ostime_add rxt (ms2osticks 5))
                  (guard_margin (LMIC_calcAirTime r 255)))
  else if mode =? RADIO_RXON then
    radio_stop ;;
    (if DEBUG_RX
     then debug_printf "RXON_MODE[freq=%.1F,sf=%d,bw=%s]\r\n"
     else ret tt) ;;
    store state_txmode 0 ;;
    radio_startrx true
  else if mode =? RADIO_TXCW then
    radio_stop ;;
    radio_cw
  else if mode =? RADIO_CCA then
    radio_stop ;;
    radio_cca
  else if mode =? RADIO_INIT then
    radio_init true
  else if mode =? RADIO_TXCONT then
    radio_stop ;;
    radio_starttx true
  else if mode =? RADIO_CAD then
    radio_stop ;;
    store state_txmode 0 ;;
    now <- os_getTime ;;
    r <- gets (fun m => rps (LMIC m)) ;;
    radio_set_irq_timeout
      (ostime_add (ostime_add now (ms2osticks 10))
                  (guard_margin (LMIC_calcAirTime r 255))) ;;
    radio_cad
  else
    ret tt.

(** *** Definitions used to state the properties *)

(** The effects of one run of [radio_stop], in order. *)
Definition radio_stop_trace : list event :=
  [Ev_hal_disableIRQs; Ev_radio_sleep; Ev_hal_ant_switch HAL_ANTSW_OFF;
   Ev_hal_pin_tcxo 0; Ev_hal_irqmask_set 0; Ev_os_clearCallback state_irqjob;
   Ev_store state_diomask 0; Ev_hal_enableIRQs].

(** The machine state [radio_stop] leaves: the radio asleep, the antenna
    switch off, the TCXO unpowered, the hardware interrupt mask 0, the job
    slot of [state] empty and [state.diomask] 0. *)
Definition stopped (m : machine) : machine :=
  mk_machine
    (mk_state (irqtime (state m))
              (mk_osjob (func (irqjob (state m))) JobIdle)
              0
              (txmode (state m)))
    (LMIC m)
    (mk_hw OpSleep HAL_ANTSW_OFF 0 0 true)
    (clock m).

(** What each case of [os_radio] does after its call of [radio_stop]; the
    case of [RADIO_INIT] has no such call and is listed whole. *)
Definition os_radio_action (mode : u1_t) : Cmd unit :=
  if mode =? RADIO_STOP then
    ret tt
  else if mode =? RADIO_TX then
    (if DEBUG_TX
     then debug_printf "TX[fcnt=%ld,freq=%.1F,sf=%d,bw=%d,pow=%d,len=%d%s]: %.80h\r\n"
     else ret tt) ;;
    radio_starttx false ;;
    store state_txmode 1 ;;
    now <- os_getTime ;;
    r <- gets (fun m => rps (LMIC m)) ;;
    len <- gets (fun m => dataLen (LMIC m)) ;;
    radio_set_irq_timeout
      (ostime_add (ostime_add now (ms2osticks 20))
                  (guard_margin (LMIC_calcAirTime r len)))
  else if mode =? RADIO_RX then
    (if DEBUG_RX
     then debug_printf "RX_MODE[freq=%.1F,sf=%d,bw=%s,rxtime=%.0F]\r\n"
     else ret tt) ;;
    radio_startrx false ;;
    store state_txmode 0 ;;
    rxt <- gets (fun m => rxtime (LMIC m)) ;;
    r <- gets (fun m => rps (LMIC m)) ;;
    radio_set_irq_timeout
      (ostime_add (ostime_add rxt (ms2osticks 5))
                  (guard_margin (LMIC_calcAirTime r 255)))
  else if mode =? RADIO_RXON then
    (if DEBUG_RX
     then debug_printf "RXON_MODE[freq=%.1F,sf=%d,bw=%s]\r\n"
     else ret tt) ;;
    store state_txmode 0 ;;
    radio_startrx true
  else if mode =? RADIO_TXCW then
    radio_cw
  else if mode =? RADIO_CCA then
    radio_cca
  else if mode =? RADIO_INIT then
    radio_init true
  else if mode =? RADIO_TXCONT then
    radio_starttx true
  else if mode =? RADIO_CAD then
    store state_txmode 0 ;;
    now <- os_getTime ;;
    r <- gets (fun m => rps (LMIC m)) ;;
    radio_set_irq_timeout
      (ostime_add (ostime_add now (ms2osticks 10))
                  (guard_margin (LMIC_calcAirTime r 255))) ;;
    radio_cad
  else
    ret tt.

(** A sequence of dispatcher calls. *)
Fixpoint os_radio_seq (ms : list u1_t) : Cmd unit :=
  match ms with
  | [] => ret tt
  | m :: ms' => os_radio m ;; os_radio_seq ms'
  end.

(** The modes whose case assigns [state.txmode]. *)
Definition assigns_txmode (mode : u1_t) : bool :=
  (mode =? RADIO_TX) || (mode =? RADIO_RX) || (mode =? RADIO_RXON)
  || (mode =? RADIO_CAD).

(** The last mode of [ms] whose case assigns [state.txmode], [acc] if none. *)
Fixpoint last_assigning (acc : option u1_t) (ms : list u1_t) : option u1_t :=
  match ms with
  | [] => acc
  | m :: ms' => last_assigning (if assigns_txmode m then Some m else acc) ms'
  end.

(** Whether the driver was last commanded to transmit. *)
Definition transmitting (o : radio_op) : bool :=
  match o with
  | OpTx _ | OpCw => true
  | _ => false
  end.

(** Modelled from the spec: the run step of the job scheduler (oslmic.c, not
    under src/) for the job slot of [state].  A pending job is run once: it
    leaves the slot when it is started; a timed job is not started before
    its deadline, and a protected one is started with interrupts masked. *)
Definition run_callback (cb : osjobcb_t) : Cmd unit :=
  match cb with
  | cb_radio_irq_timeout => radio_irq_timeout
  | cb_radio_irq_func => radio_irq_func
  | _ => ret tt
  end.

Definition os_runstep : Cmd unit :=
  j <- gets (get_job state_irqjob) ;;
  now <- os_getTime ;;
  match pending j with
  | JobIdle => ret tt
  | JobRunnable =>
      modify (put_job state_irqjob (mk_osjob (func j) JobIdle)) ;;
      run_callback (func j)
  | JobTimed deadline irqdisabled =>
      if 0 <=? wrap32 (now - deadline) then
        modify (put_job state_irqjob (mk_osjob (func j) JobIdle)) ;;
        (if irqdisabled then hal_disableIRQs else ret tt) ;;
        run_callback (func j)
      else ret tt
  end.

(** The passing of time between two steps. *)
Definition advance_clock (t : ostime_t) : Cmd unit :=
  modify (fun m => mk_machine (state m) (LMIC m) (hw m) t).

End Radio.

(** ** A sample configuration

    Mode numbers in the order of the cases of [os_radio], a MAC layer whose
    frames take 50 ms (3125 ticks of 16 us) on air, a driver whose interrupt
    classification reports an intermediate interrupt and does nothing else,
    and one that reports completion. *)

Definition sample_modes : RadioModes :=
  Build_RadioModes 0 1 2 3 4 5 6 7 8.

Definition intermediate_driver : Externals :=
  Build_Externals (fun _ _ => ret false) (fun _ _ => 3125).

Definition completing_driver : Externals :=
  Build_Externals (fun _ _ => ret true) (fun _ _ => 3125).

(** The machine after reset: nothing pending, the MAC continuation preset. *)
Definition boot_world : world :=
  mk_world
    (mk_machine
       (mk_state 0 (mk_osjob cb_null JobIdle) 0 0)
       (mk_lmic (mk_osjob (cb_mac 1) JobIdle) 0 0 0)
       (mk_hw OpSleep HAL_ANTSW_OFF 0 0 true)
       0)
    [].

(** A machine in the middle of a receive: the top half has captured
    interrupt line 2 at tick 900 and its bottom half has not run yet. *)
Definition captured_world : world :=
  mk_world
    (mk_machine
       (mk_state 900 (mk_osjob cb_radio_irq_func JobRunnable) 4 0)
       (mk_lmic (mk_osjob (cb_mac 1) JobIdle) 800 0 12)
       (mk_hw (OpRx false) (HAL_ANTSW_PATH 1) 1 4 true)
       1000)
    [].

(** The sample machine in the middle of a scheduled receive dispatched at
    boot: the guard is pending at tick 3749 (5 ms are 312 ticks, 1.10 times
    3125 ticks are 3437). *)
Definition receiving_world : world :=
  mk_world
    (mk_machine
       (mk_state 0 (mk_osjob cb_radio_irq_timeout (JobTimed 3749 true)) 0 0)
       (mk_lmic (mk_osjob (cb_mac 1) JobIdle) 0 0 0)
       (mk_hw (OpRx false) HAL_ANTSW_OFF 0 0 true)
       0)
    [].

(** One interrupt on line 0 at tick 100, its bottom half run by the
    scheduler, and then the scheduler run again once the clock has reached
    tick [t]. *)
Definition interrupt_then_silence (ext : Externals) (t : ostime_t) : Cmd unit :=
  radio_irq_handler 1 100 ;;
  os_runstep ;;
  advance_clock t ;;
  os_runstep.

(** The effects of one run of the guard timeout. *)
Definition radio_irq_timeout_trace (tx : u1_t) (f : osjobcb_t) : list event :=
  radio_stop_trace
  ++ (if tx =? 0 then [] else [Ev_radio_init true])
  ++ [Ev_hal_enableIRQs;
      Ev_debug_printf "WARNING: radio irq timeout!\r\n";
      Ev_store LMIC_dataLen 0;
      Ev_os_setCallback LMIC_osjob f].

(** [q] is 1.10 times [a], rounded down to a whole tick. *)
Definition tenth_more (a q : Z) : Prop :=
  100 * q <= 110 * a < 100 * q + 100.

(** The machine state the guard timeout leaves. *)
Definition timed_out (m : machine) : machine :=
  mk_machine
    (state (stopped m))
    (mk_lmic (mk_osjob (func (osjob (LMIC m))) JobRunnable)
             (rxtime (LMIC m)) (rps (LMIC m)) 0)
    (mk_hw (if txmode (state m) =? 0 then OpSleep else OpInit true)
           HAL_ANTSW_OFF 0 0 true)
    (clock m).

(** The guard a dispatch arms: the protected timed job in the slot of
    [state]. *)
Definition guard_armed (deadline : ostime_t) (m : machine) : Prop :=
  irqjob (state m) = mk_osjob cb_radio_irq_timeout (JobTimed deadline true).

(** The reading of [state.txmode] after a sequence of dispatches: set when
    the last dispatch whose case assigns the flag was [RADIO_TX], clear when
    it was one of the other three, and as before when there was none. *)
Definition txmode_tracks {modes : RadioModes} (last : option u1_t)
    (before after : u1_t) : Prop :=
  match last with
  | Some m => after = (if m =? RADIO_TX then 1 else 0)
  | None => after = before
  end.

(** The machine after the top half has captured an interrupt. *)
Definition captured (mask : u1_t) (ticks : ostime_t) (m : machine) : machine :=
  mk_machine
    (mk_state ticks (mk_osjob cb_radio_irq_func JobRunnable) mask
              (txmode (state m)))
    (LMIC m) (hw m) (clock m).

Definition top_half_trace (mask : u1_t) (ticks : ostime_t) : list event :=
  [Ev_store state_irqtime ticks;
   Ev_store state_diomask mask;
   Ev_os_setCallback state_irqjob cb_radio_irq_func].

(** The machine once the scheduler has taken the job out of the slot of
    [state] to run it. *)
Definition dequeued (m : machine) : machine :=
  put_job state_irqjob (mk_osjob (func (irqjob (state m))) JobIdle) m.

(** Net change of the interrupt-masking depth over a trace: one up for
    every [hal_disableIRQs], one down for every [hal_enableIRQs]. *)
Fixpoint irq_depth (es : list event) : Z :=
  match es with
  | [] => 0
  | Ev_hal_disableIRQs :: es' => irq_depth es' + 1
  | Ev_hal_enableIRQs :: es' => irq_depth es' - 1
  | _ :: es' => irq_depth es'
  end.

(** The effects by which radio.c reports to the MAC layer: scheduling the
    upstream job and assigning [LMIC.dataLen]; and the failed assertion. *)
Definition signals_upstream (e : event) : bool :=
  match e with
  | Ev_os_setCallback LMIC_osjob _ => true
  | Ev_store LMIC_dataLen _ => true
  | _ => false
  end.

Definition is_hal_failed (e : event) : bool :=
  match e with
  | Ev_hal_failed => true
  | _ => false
  end.

(** The machine after a completed operation: stopped, with the upstream
    job runnable. *)
Definition completed (m : machine) : machine :=
  with_LMIC (set_osjob (mk_osjob (func (osjob (LMIC m))) JobRunnable))
            (stopped m).

(** A driver whose classification reports an intermediate interrupt and
    rewinds the guard to 2000 ticks after the interrupt. *)
Definition rearming_driver : Externals :=
  Build_Externals
    (fun t _ => radio_set_irq_timeout (ostime_add t 2000) ;; ret false)
    (fun _ _ => 3125).

(** The sample machine at boot time except for what an operation in flight
    leaves behind: the radio receiving, an interrupt captured and its
    bottom half pending. *)
Definition stale_world : world :=
  mk_world
    (mk_machine
       (mk_state 0 (mk_osjob cb_null JobRunnable) 4 0)
       (mk_lmic (mk_osjob (cb_mac 1) JobIdle) 0 0 0)
       (mk_hw (OpRx true) (HAL_ANTSW_PATH 1) 1 4 false)
       0)
    [Ev_radio_startrx true].

(** * Properties *)

Ltac run :=
  cbv [radio_stop radio_irq_timeout radio_set_irq_timeout radio_irq_handler
       hal_disableIRQs hal_enableIRQs hal_ant_switch hal_pin_tcxo
       hal_irqmask_set hal_failed os_getTime ASSERT
       radio_sleep radio_init radio_starttx radio_startrx radio_cw radio_cca
       radio_cad os_clearCallback os_setCallback os_setProtectedTimedCallback
       debug_printf store bind ret emit gets modify
       DEBUG_TX DEBUG_RX];
  cbn [mach log state LMIC hw clock irqtime irqjob diomask txmode
       osjob rxtime rps dataLen func pending radio antsw tcxo irqmask
       irqs_enabled get_job put_job with_state with_LMIC with_hw
       set_irqtime set_irqjob set_diomask set_txmode set_osjob set_dataLen
       set_radio set_antsw set_tcxo set_irqmask set_irqs_enabled].

Ltac norm_log := repeat rewrite <- app_assoc; cbn [app].

Lemma radio_stop_run (w : world) :
  radio_stop w = Done tt (mk_world (stopped (mach w)) (log w ++ radio_stop_trace)).
Proof.
  run. unfold stopped, radio_stop_trace. norm_log. reflexivity.
Qed.

Lemma bind_radio_stop {A : Type} (k : Cmd A) (w : world) :
  (radio_stop ;; k) w
  = k (mk_world (stopped (mach w)) (log w ++ radio_stop_trace)).
Proof.
  unfold bind at 1. rewrite radio_stop_run. reflexivity.
Qed.

Lemma stopped_idem (m : machine) : stopped (stopped m) = stopped m.
Proof. reflexivity. Qed.

(** C8: Stop/Reset is idempotent.  From every starting state a second
    consecutive [radio_stop] returns and leaves the machine state exactly as
    the first one left it: radio asleep, antenna switch off, TCXO off,
    hardware interrupt mask 0, job slot empty and [state.diomask] 0. *)
Theorem radio_stop_idempotent (w : world) :
  exists w1 w2,
    radio_stop w = Done tt w1 /\
    radio_stop w1 = Done tt w2 /\
    mach w2 = mach w1 /\
    radio (hw (mach w1)) = OpSleep /\
    antsw (hw (mach w1)) = HAL_ANTSW_OFF /\
    tcxo (hw (mach w1)) = 0 /\
    irqmask (hw (mach w1)) = 0 /\
    pending (irqjob (state (mach w1))) = JobIdle /\
    diomask (state (mach w1)) = 0.
Proof.
  eexists. eexists.
  split; [apply radio_stop_run|].
  split; [apply radio_stop_run|].
  cbn [mach]. rewrite stopped_idem.
  repeat split.
Qed.

Section Properties.

Context {modes : RadioModes} {ext : Externals}.

Hypothesis modes_distinct : NoDup radio_modes.

Lemma modes_neq :
  RADIO_INIT <> RADIO_STOP /\ RADIO_INIT <> RADIO_TX /\
  RADIO_INIT <> RADIO_RX /\ RADIO_INIT <> RADIO_RXON /\
  RADIO_INIT <> RADIO_TXCW /\ RADIO_INIT <> RADIO_CCA /\
  RADIO_TX <> RADIO_STOP /\
  RADIO_RX <> RADIO_STOP /\ RADIO_RX <> RADIO_TX /\
  RADIO_RXON <> RADIO_STOP /\ RADIO_RXON <> RADIO_TX /\
  RADIO_RXON <> RADIO_RX /\
  RADIO_CAD <> RADIO_STOP /\ RADIO_CAD <> RADIO_TX /\
  RADIO_CAD <> RADIO_RX /\ RADIO_CAD <> RADIO_RXON /\
  RADIO_CAD <> RADIO_TXCW /\ RADIO_CAD <> RADIO_CCA /\
  RADIO_CAD <> RADIO_INIT /\ RADIO_CAD <> RADIO_TXCONT.
Proof.
  pose proof modes_distinct as H. unfold radio_modes in H.
  repeat match goal with
         | H : NoDup (_ :: _) |- _ =>
             let x := fresh "x" in let l := fresh "l" in
             let Hn := fresh "Hn" in let Hd := fresh "Hd" in
             inversion H as [| x l Hn Hd]; clear H; subst x l
         end.
  cbn [In] in *.
  repeat split; intro E; rewrite E in *; tauto.
Qed.

Ltac split_modes :=
  repeat match goal with
         | |- context [Z.eqb ?a ?b] => destruct (Z.eqb_spec a b)
         end.

Lemma os_radio_factor (mode : u1_t) (w : world) :
  In mode radio_modes -> mode <> RADIO_INIT ->
  os_radio mode w
  = os_radio_action mode
      (mk_world (stopped (mach w)) (log w ++ radio_stop_trace)).
Proof.
  intros Hin Hne.
  unfold os_radio, os_radio_action. split_modes;
    try (rewrite bind_radio_stop; reflexivity);
    try apply radio_stop_run; try contradiction.
  exfalso. unfold radio_modes in Hin. cbn [In] in Hin.
  intuition congruence.
Qed.

Lemma in_modes_TX : In RADIO_TX radio_modes.
Proof. unfold radio_modes; cbn [In]; tauto. Qed.
Lemma in_modes_RX : In RADIO_RX radio_modes.
Proof. unfold radio_modes; cbn [In]; tauto. Qed.
Lemma in_modes_CAD : In RADIO_CAD radio_modes.
Proof. unfold radio_modes; cbn [In]; tauto. Qed.

Ltac neq_facts :=
  let H := fresh "Hneq" in
  pose proof modes_neq as H; decompose [and] H; clear H.

Ltac pick_mode :=
  unfold os_radio_action;
  repeat match goal with
         | |- context [Z.eqb ?a ?a] => rewrite (Z.eqb_refl a)
         | H : ?a <> ?b |- context [Z.eqb ?a ?b] =>
             rewrite (proj2 (Z.eqb_neq a b) H)
         end.

Lemma os_radio_TX_run (w : world) :
  os_radio RADIO_TX w
  = Done tt
      (mk_world
         (mk_machine
            (mk_state (irqtime (state (mach w)))
               (mk_osjob cb_radio_irq_timeout
                  (JobTimed
                     (ostime_add (ostime_add (clock (mach w)) (ms2osticks 20))
                        (guard_margin
                           (LMIC_calcAirTime (rps (LMIC (mach w)))
                              (dataLen (LMIC (mach w))))))
                     true))
               0 1)
            (LMIC (mach w))
            (mk_hw (OpTx false) HAL_ANTSW_OFF 0 0 true)
            (clock (mach w)))
         (log w ++ radio_stop_trace
          ++ [Ev_debug_printf
                "TX[fcnt=%ld,freq=%.1F,sf=%d,bw=%d,pow=%d,len=%d%s]: %.80h\r\n";
              Ev_radio_starttx false;
              Ev_store state_txmode 1;
              Ev_os_setProtectedTimedCallback state_irqjob
                (ostime_add (ostime_add (clock (mach w)) (ms2osticks 20))
                   (guard_margin
                      (LMIC_calcAirTime (rps (LMIC (mach w)))
                         (dataLen (LMIC (mach w))))))
                cb_radio_irq_timeout])).
Proof.
  neq_facts.
  rewrite os_radio_factor by (apply in_modes_TX || congruence).
  pick_mode. run. unfold stopped. run. norm_log. reflexivity.
Qed.

Lemma os_radio_RX_run (w : world) :
  os_radio RADIO_RX w
  = Done tt
      (mk_world
         (mk_machine
            (mk_state (irqtime (state (mach w)))
               (mk_osjob cb_radio_irq_timeout
                  (JobTimed
                     (ostime_add
                        (ostime_add (rxtime (LMIC (mach w))) (ms2osticks 5))
                        (guard_margin
                           (LMIC_calcAirTime (rps (LMIC (mach w))) 255)))
                     true))
               0 0)
            (LMIC (mach w))
            (mk_hw (OpRx false) HAL_ANTSW_OFF 0 0 true)
            (clock (mach w)))
         (log w ++ radio_stop_trace
          ++ [Ev_debug_printf
                "RX_MODE[freq=%.1F,sf=%d,bw=%s,rxtime=%.0F]\r\n";
              Ev_radio_startrx false;
              Ev_store state_txmode 0;
              Ev_os_setProtectedTimedCallback state_irqjob
                (ostime_add
                   (ostime_add (rxtime (LMIC (mach w))) (ms2osticks 5))
                   (guard_margin
                      (LMIC_calcAirTime (rps (LMIC (mach w))) 255)))
                cb_radio_irq_timeout])).
Proof.
  neq_facts.
  rewrite os_radio_factor by (apply in_modes_RX || congruence).
  pick_mode. run. unfold stopped. run. norm_log. reflexivity.
Qed.

Lemma os_radio_CAD_run (w : world) :
  os_radio RADIO_CAD w
  = Done tt
      (mk_world
         (mk_machine
            (mk_state (irqtime (state (mach w)))
               (mk_osjob cb_radio_irq_timeout
                  (JobTimed
                     (ostime_add (ostime_add (clock (mach w)) (ms2osticks 10))
                        (guard_margin
                           (LMIC_calcAirTime (rps (LMIC (mach w))) 255)))
                     true))
               0 0)
            (LMIC (mach w))
            (mk_hw OpCad HAL_ANTSW_OFF 0 0 true)
            (clock (mach w)))
         (log w ++ radio_stop_trace
          ++ [Ev_store state_txmode 0;
              Ev_os_setProtectedTimedCallback state_irqjob
                (ostime_add (ostime_add (clock (mach w)) (ms2osticks 10))
                   (guard_margin
                      (LMIC_calcAirTime (rps (LMIC (mach w))) 255)))
                cb_radio_irq_timeout;
              Ev_radio_cad])).
Proof.
  neq_facts.
  rewrite os_radio_factor by (apply in_modes_CAD || congruence).
  pick_mode. run. unfold stopped. run. norm_log. reflexivity.
Qed.

(** C1 (amended): for each of the eight modes other than Initialize the
    dispatcher's first action is [radio_stop], it returns, and in the state
    it leaves, in which the mode-specific action begins, [state.diomask] is
    0.  For [RADIO_INIT] the dispatcher only calls [radio_init(true)]: no
    Stop/Reset is run and [state.diomask] keeps its value. *)
Theorem os_radio_stop_first (mode : u1_t) (w : world) :
  In mode radio_modes ->
  (mode <> RADIO_INIT ->
   exists w1,
     radio_stop w = Done tt w1 /\
     diomask (state (mach w1)) = 0 /\
     log w1 = log w ++ radio_stop_trace /\
     os_radio mode w = os_radio_action mode w1) /\
  (mode = RADIO_INIT ->
   os_radio mode w
   = Done tt (mk_world (with_hw (set_radio (OpInit true)) (mach w))
                       (log w ++ [Ev_radio_init true])) /\
   os_radio_action mode = radio_init true).
Proof.
  intros Hin. split.
  - intros Hne.
    exists (mk_world (stopped (mach w)) (log w ++ radio_stop_trace)).
    split; [apply radio_stop_run|].
    split; [reflexivity|]. split; [reflexivity|].
    unfold os_radio, os_radio_action. split_modes;
      try (rewrite bind_radio_stop; reflexivity);
      try apply radio_stop_run; try contradiction.
    exfalso. unfold radio_modes in Hin. cbn [In] in Hin.
    intuition congruence.
  - intros ->.
    destruct modes_neq as (H1 & H2 & H3 & H4 & H5 & H6 & _).
    unfold os_radio, os_radio_action.
    repeat match goal with
           | H : RADIO_INIT <> ?x |- _ =>
               rewrite (proj2 (Z.eqb_neq RADIO_INIT x) H); clear H
           end.
    rewrite Z.eqb_refl. split; reflexivity.
Qed.

(** C10: for a mode value outside the nine enumerated modes [os_radio]
    returns at once with the world, its effect trace included, unchanged:
    no assignment, no call into the HAL, the driver or the scheduler. *)
Theorem os_radio_unknown_mode (mode : u1_t) (w : world) :
  ~ In mode radio_modes ->
  os_radio mode w = Done tt w.
Proof.
  intros Hout. unfold radio_modes in Hout. cbn [In] in Hout.
  unfold os_radio. split_modes; try reflexivity; exfalso; intuition congruence.
Qed.

Lemma radio_irq_timeout_run (w : world) :
  radio_irq_timeout w
  = Done tt
      (mk_world (timed_out (mach w))
         (log w ++ radio_irq_timeout_trace (txmode (state (mach w)))
                     (func (osjob (LMIC (mach w)))))).
Proof.
  unfold radio_irq_timeout. rewrite bind_radio_stop.
  unfold radio_irq_timeout_trace, timed_out, stopped.
  run. destruct (txmode (state (mach w)) =? 0); cbn [negb]; run; norm_log;
    reflexivity.
Qed.

Lemma wrap32_add_l (x y : Z) : wrap32 (wrap32 x + y) = wrap32 (x + y).
Proof.
  unfold wrap32.
  replace ((x + 2 ^ 31) mod 2 ^ 32 - 2 ^ 31 + y + 2 ^ 31)
    with ((x + 2 ^ 31) mod 2 ^ 32 + y) by ring.
  rewrite Zplus_mod_idemp_l. f_equal. f_equal. ring.
Qed.

Lemma wrap32_small (x : Z) : - 2 ^ 31 <= x < 2 ^ 31 -> wrap32 x = x.
Proof.
  intros H. unfold wrap32. rewrite Z.mod_small; lia.
Qed.

Lemma guard_margin_tenth_more (a : Z) :
  0 <= a -> a * 110 < 2 ^ 31 ->
  tenth_more a (guard_margin a).
Proof.
  intros H0 H1. unfold guard_margin, ostime_div, ostime_mul, tenth_more.
  rewrite wrap32_small by lia.
  rewrite Z.quot_div_nonneg by lia.
  pose proof (Z.mul_div_le (a * 110) 100 ltac:(lia)).
  pose proof (Z.mul_succ_div_gt (a * 110) 100 ltac:(lia)).
  lia.
Qed.

Lemma guard_deadline_sum (base over margin : Z) :
  ostime_add (ostime_add base over) margin = wrap32 (base + over + margin).
Proof.
  unfold ostime_add. apply wrap32_add_l.
Qed.

(** C2: when the guard timeout fires it returns, and its effects are, in
    order, those of Stop/Reset, then [radio_init(true)] exactly when
    [state.txmode] is non-zero, then the re-enabling of interrupts, the
    warning, the zero length and the scheduling of the upstream
    continuation.  The machine it leaves is the stopped one, with the radio
    re-initialized and calibrated exactly when [state.txmode] is non-zero
    and asleep otherwise, [LMIC.dataLen] 0 and the upstream job runnable.
    Fired after a dispatch of [RADIO_RX] or [RADIO_CAD] it performs no
    re-initialization and leaves the radio asleep; fired after [RADIO_TX]
    it re-initializes the radio. *)
Theorem guard_timeout_reinit (w : world) :
  (exists w',
     radio_irq_timeout w = Done tt w' /\
     mach w' = timed_out (mach w) /\
     radio (hw (mach w'))
     = (if txmode (state (mach w)) =? 0 then OpSleep else OpInit true) /\
     log w' = log w
              ++ radio_stop_trace
              ++ (if txmode (state (mach w)) =? 0 then []
                  else [Ev_radio_init true])
              ++ [Ev_hal_enableIRQs;
                  Ev_debug_printf "WARNING: radio irq timeout!\r\n";
                  Ev_store LMIC_dataLen 0;
                  Ev_os_setCallback LMIC_osjob (func (osjob (LMIC (mach w))))] /\
     (In (Ev_radio_init true)
         (radio_irq_timeout_trace (txmode (state (mach w)))
                                  (func (osjob (LMIC (mach w)))))
      <-> txmode (state (mach w)) <> 0)) /\
  (forall mode, mode = RADIO_RX \/ mode = RADIO_CAD ->
     exists w1 w2,
       os_radio mode w = Done tt w1 /\
       txmode (state (mach w1)) = 0 /\
       radio_irq_timeout w1 = Done tt w2 /\
       mach w2 = timed_out (mach w1) /\
       radio (hw (mach w2)) = OpSleep /\
       log w2 = log w1
                ++ radio_irq_timeout_trace 0 (func (osjob (LMIC (mach w)))) /\
       (forall c, ~ In (Ev_radio_init c)
                       (radio_irq_timeout_trace 0 (func (osjob (LMIC (mach w))))))) /\
  (exists w1 w2,
     os_radio RADIO_TX w = Done tt w1 /\
     txmode (state (mach w1)) = 1 /\
     radio_irq_timeout w1 = Done tt w2 /\
     mach w2 = timed_out (mach w1) /\
     radio (hw (mach w2)) = OpInit true /\
     log w2 = log w1
              ++ radio_irq_timeout_trace 1 (func (osjob (LMIC (mach w)))) /\
     In (Ev_radio_init true)
        (radio_irq_timeout_trace 1 (func (osjob (LMIC (mach w)))))).
Proof.
  split; [|split].
  - eexists. split; [apply radio_irq_timeout_run|].
    split; [reflexivity|]. split; [reflexivity|]. split; [reflexivity|].
    unfold radio_irq_timeout_trace, radio_stop_trace.
    destruct (Z.eqb_spec (txmode (state (mach w))) 0) as [E|E]; cbn [app In];
      split; intros H; try tauto; try (exfalso; intuition discriminate).
  - intros mode [-> | ->]; eexists; eexists.
    + split; [apply os_radio_RX_run|]. split; [reflexivity|].
      split; [apply radio_irq_timeout_run|].
      split; [reflexivity|]. split; [reflexivity|]. split; [reflexivity|].
      intros c H. unfold radio_irq_timeout_trace, radio_stop_trace in H.
      cbn in H. intuition discriminate.
    + split; [apply os_radio_CAD_run|]. split; [reflexivity|].
      split; [apply radio_irq_timeout_run|].
      split; [reflexivity|]. split; [reflexivity|]. split; [reflexivity|].
      intros c H. unfold radio_irq_timeout_trace, radio_stop_trace in H.
      cbn in H. intuition discriminate.
  - eexists; eexists.
    split; [apply os_radio_TX_run|]. split; [reflexivity|].
    split; [apply radio_irq_timeout_run|].
    split; [reflexivity|]. split; [reflexivity|]. split; [reflexivity|].
    unfold radio_irq_timeout_trace, radio_stop_trace. cbn. tauto.
Qed.

(** C3: when the guard timeout fires it returns with [LMIC.dataLen] 0 and
    the upstream job runnable with its preset callback; the zero is stored
    immediately before the callback is scheduled; the rest of [LMIC] is
    untouched, and the only assignments the timeout path makes are the
    zero to [state.diomask] and the zero to [LMIC.dataLen]. *)
Theorem guard_timeout_zero_length (w : world) :
  exists w' pre,
    radio_irq_timeout w = Done tt w' /\
    dataLen (LMIC (mach w')) = 0 /\
    osjob (LMIC (mach w'))
    = mk_osjob (func (osjob (LMIC (mach w)))) JobRunnable /\
    rxtime (LMIC (mach w')) = rxtime (LMIC (mach w)) /\
    rps (LMIC (mach w')) = rps (LMIC (mach w)) /\
    log w' = log w ++ pre
             ++ [Ev_store LMIC_dataLen 0;
                 Ev_os_setCallback LMIC_osjob (func (osjob (LMIC (mach w))))] /\
    (forall j cb, ~ In (Ev_os_setCallback j cb) pre) /\
    (forall f v, In (Ev_store f v) pre -> f = state_diomask /\ v = 0).
Proof.
  eexists.
  exists (radio_stop_trace
          ++ (if txmode (state (mach w)) =? 0 then []
              else [Ev_radio_init true])
          ++ [Ev_hal_enableIRQs;
              Ev_debug_printf "WARNING: radio irq timeout!\r\n"]).
  split; [apply radio_irq_timeout_run|].
  cbn [mach log timed_out LMIC dataLen osjob rxtime rps].
  repeat (split; [reflexivity|]).
  split; [|split].
  - unfold radio_irq_timeout_trace. norm_log. reflexivity.
  - intros j cb H. unfold radio_stop_trace in H.
    destruct (txmode (state (mach w)) =? 0); cbn in H; intuition discriminate.
  - intros f v H. unfold radio_stop_trace in H.
    destruct (txmode (state (mach w)) =? 0); cbn in H;
      intuition (try discriminate);
      match goal with E : Ev_store _ _ = Ev_store _ _ |- _ =>
        inversion E; reflexivity end.
Qed.

(** C4: the guard a timeout-eligible dispatch arms.  With the air time a
    non-negative number of ticks whose product with 110 fits [ostime_t],
    Transmit arms now + 20 ms + 1.10 x airtime(payload length), scheduled
    Receive arms rxtime + 5 ms + 1.10 x airtime(255) and channel-activity
    detection arms now + 10 ms + 1.10 x airtime(255), in ticks, the margin
    rounded down to a whole tick and the sum taken in [ostime_t].  A
    Transmit with an air time of 50 ms arms now + 75 ms. *)
Theorem guard_deadline_formula (w : world) :
  let a := LMIC_calcAirTime (rps (LMIC (mach w))) (dataLen (LMIC (mach w))) in
  let a255 := LMIC_calcAirTime (rps (LMIC (mach w))) 255 in
  (0 <= a -> a * 110 < 2 ^ 31 ->
   exists q w',
     tenth_more a q /\
     os_radio RADIO_TX w = Done tt w' /\
     guard_armed (wrap32 (clock (mach w) + ms2osticks 20 + q)) (mach w') /\
     (a = ms2osticks 50 ->
      guard_armed (wrap32 (clock (mach w) + ms2osticks 75)) (mach w'))) /\
  (0 <= a255 -> a255 * 110 < 2 ^ 31 ->
   exists q w1 w2,
     tenth_more a255 q /\
     os_radio RADIO_RX w = Done tt w1 /\
     guard_armed (wrap32 (rxtime (LMIC (mach w)) + ms2osticks 5 + q)) (mach w1) /\
     os_radio RADIO_CAD w = Done tt w2 /\
     guard_armed (wrap32 (clock (mach w) + ms2osticks 10 + q)) (mach w2)).
Proof.
  intros a a255. split.
  - intros H0 H1. exists (guard_margin a). eexists.
    split; [apply guard_margin_tenth_more; assumption|].
    split; [apply os_radio_TX_run|].
    unfold guard_armed. cbn [mach state irqjob]. fold a.
    rewrite guard_deadline_sum. split; [reflexivity|].
    intros ->. rewrite <- Z.add_assoc.
    replace (ms2osticks 20 + guard_margin (ms2osticks 50))
      with (ms2osticks 75) by (vm_compute; reflexivity).
    reflexivity.
  - intros H0 H1. exists (guard_margin a255). eexists. eexists.
    split; [apply guard_margin_tenth_more; assumption|].
    split; [apply os_radio_RX_run|].
    split; [unfold guard_armed; cbn [mach state irqjob]; fold a255;
            rewrite guard_deadline_sum; reflexivity|].
    split; [apply os_radio_CAD_run|].
    unfold guard_armed; cbn [mach state irqjob]; fold a255.
    rewrite guard_deadline_sum. reflexivity.
Qed.

(** C5: the interrupt top half.  Invoked while [state.diomask] is non-zero
    it halts in the failed assertion, with the captured interrupt time and
    mask and the job slot as they were; under [state.diomask = 0] it
    returns, having stored [ticks] into [state.irqtime], the line mask into
    [state.diomask] and the bottom half, runnable, into the job slot. *)
Theorem radio_irq_handler_contract (mask : u1_t) (ticks : ostime_t) (w : world) :
  (diomask (state (mach w)) <> 0 ->
   radio_irq_handler mask ticks w
   = Fatal (mk_world (mach w) (log w ++ [Ev_hal_failed]))) /\
  (diomask (state (mach w)) = 0 ->
   radio_irq_handler mask ticks w
   = Done tt
       (mk_world
          (mk_machine
             (mk_state ticks (mk_osjob cb_radio_irq_func JobRunnable)
                       mask (txmode (state (mach w))))
             (LMIC (mach w)) (hw (mach w)) (clock (mach w)))
          (log w ++ [Ev_store state_irqtime ticks;
                     Ev_store state_diomask mask;
                     Ev_os_setCallback state_irqjob cb_radio_irq_func]))).
Proof.
  split; intros H.
  - run. apply Z.eqb_neq in H. rewrite H. reflexivity.
  - run. rewrite H. cbn [Z.eqb]. norm_log. reflexivity.
Qed.

Lemma radio_irq_func_intermediate (w w1 : world) :
  radio_irq_process (irqtime (state (mach w))) (diomask (state (mach w))) w
  = Done false w1 ->
  radio_irq_func w
  = Done tt (mk_world (with_state (set_diomask 0) (mach w1))
                      (log w1 ++ [Ev_store state_diomask 0])).
Proof.
  intros Hp. unfold radio_irq_func. unfold bind at 1 2 3. unfold gets at 1 2.
  rewrite Hp. run. reflexivity.
Qed.

Lemma os_runstep_bottom_half (w : world) :
  irqjob (state (mach w)) = mk_osjob cb_radio_irq_func JobRunnable ->
  os_runstep w = radio_irq_func (mk_world (dequeued (mach w)) (log w)).
Proof.
  intros H. unfold os_runstep, os_getTime.
  unfold bind at 1 2. unfold gets at 1 2. cbn [get_job].
  rewrite H. cbn [pending func]. unfold bind at 1. unfold modify at 1.
  unfold dequeued. rewrite H. reflexivity.
Qed.

(** C6: the bottom half, once the driver's classification has returned.
    If it reports the operation complete, Stop/Reset runs, then the
    upstream continuation is scheduled, and afterwards [state.diomask] is
    0 and the job slot of [state] is empty.  If it reports an intermediate
    interrupt, the bottom half adds nothing but the clearing of
    [state.diomask] to what the classification left: no Stop/Reset, no
    call into the driver, the HAL or the scheduler. *)
Theorem radio_irq_func_outcomes (w w1 : world) (complete : bool) :
  radio_irq_process (irqtime (state (mach w))) (diomask (state (mach w))) w
  = Done complete w1 ->
  (complete = true ->
   exists w',
     radio_irq_func w = Done tt w' /\
     log w' = log w1 ++ radio_stop_trace
              ++ [Ev_os_setCallback LMIC_osjob (func (osjob (LMIC (mach w1))));
                  Ev_store state_diomask 0] /\
     diomask (state (mach w')) = 0 /\
     pending (irqjob (state (mach w'))) = JobIdle /\
     osjob (LMIC (mach w'))
     = mk_osjob (func (osjob (LMIC (mach w1)))) JobRunnable /\
     hw (mach w') = hw (stopped (mach w1))) /\
  (complete = false ->
   radio_irq_func w
   = Done tt (mk_world (with_state (set_diomask 0) (mach w1))
                       (log w1 ++ [Ev_store state_diomask 0]))).
Proof.
  intros Hp. split; intros ->.
  - eexists. split.
    + unfold radio_irq_func. unfold bind at 1 2 3. unfold gets at 1 2.
      rewrite Hp. unfold bind at 1 2. rewrite radio_stop_run.
      run. reflexivity.
    + cbn [mach log state LMIC hw stopped diomask irqjob pending osjob].
      norm_log. repeat split.
  - apply radio_irq_func_intermediate. exact Hp.
Qed.

Lemma radio_irq_handler_run (mask : u1_t) (ticks : ostime_t) (w : world) :
  diomask (state (mach w)) = 0 ->
  radio_irq_handler mask ticks w
  = Done tt (mk_world (captured mask ticks (mach w))
                      (log w ++ top_half_trace mask ticks)).
Proof.
  intros H. run. rewrite H. cbn [Z.eqb]. norm_log. reflexivity.
Qed.

(** C7 (amended): the top half puts the bottom half into the job slot in
    place of whatever guard was pending there.  When the scheduler then
    runs the bottom half and the driver's classification reports an
    intermediate interrupt, the bottom half arms no guard and leaves the
    job slot as the classification left it; the guard armed at dispatch is
    no longer pending, and unless the classification re-armed one through
    [radio_set_irq_timeout], no guard is pending at all. *)
Theorem intermediate_interrupt_guard
    (mask : u1_t) (ticks : ostime_t) (w w2 : world) :
  diomask (state (mach w)) = 0 ->
  radio_irq_process ticks mask
    (mk_world (dequeued (captured mask ticks (mach w)))
              (log w ++ top_half_trace mask ticks))
  = Done false w2 ->
  exists w1 w3,
    radio_irq_handler mask ticks w = Done tt w1 /\
    irqjob (state (mach w1)) = mk_osjob cb_radio_irq_func JobRunnable /\
    os_runstep w1 = Done tt w3 /\
    log w3 = log w2 ++ [Ev_store state_diomask 0] /\
    irqjob (state (mach w3)) = irqjob (state (mach w2)) /\
    (irqjob (state (mach w2)) = mk_osjob cb_radio_irq_func JobIdle ->
     pending (irqjob (state (mach w3))) = JobIdle /\
     forall deadline, ~ guard_armed deadline (mach w3)).
Proof.
  intros H0 Hp. eexists. eexists.
  split; [apply radio_irq_handler_run; assumption|].
  split; [reflexivity|].
  split.
  - rewrite os_runstep_bottom_half by reflexivity.
    exact (radio_irq_func_intermediate
             (mk_world (dequeued (captured mask ticks (mach w)))
                       (log w ++ top_half_trace mask ticks)) w2 Hp).
  - cbn [mach log state irqjob with_state set_diomask].
    split; [reflexivity|]. split; [reflexivity|].
    intros E. rewrite E. split; [reflexivity|].
    intros deadline G. unfold guard_armed in G.
    cbn [state with_state set_diomask irqjob] in G.
    rewrite E in G. discriminate.
Qed.

Lemma os_radio_txmode (mode : u1_t) (w : world) :
  exists w',
    os_radio mode w = Done tt w' /\
    txmode (state (mach w'))
    = if assigns_txmode mode
      then (if mode =? RADIO_TX then 1 else 0)
      else txmode (state (mach w)).
Proof.
  neq_facts.
  unfold os_radio, assigns_txmode. split_modes; cbn [orb];
    try (exfalso; congruence);
    (eexists; split;
     [ first [ rewrite bind_radio_stop; run; reflexivity
             | apply radio_stop_run
             | run; reflexivity ]
     | reflexivity ]).
Qed.

Lemma os_radio_seq_txmode (ms : list u1_t) :
  forall (acc : option u1_t) (init : u1_t) (w : world),
    txmode_tracks acc init (txmode (state (mach w))) ->
    exists w',
      os_radio_seq ms w = Done tt w' /\
      txmode_tracks (last_assigning acc ms) init (txmode (state (mach w'))).
Proof.
  induction ms as [| m ms IH]; intros acc init w Hinv.
  - exists w. split; [reflexivity | exact Hinv].
  - destruct (os_radio_txmode m w) as (w1 & Hrun & Htx).
    cbn [os_radio_seq last_assigning]. unfold bind at 1. rewrite Hrun.
    apply IH. rewrite Htx.
    destruct (assigns_txmode m); [reflexivity | exact Hinv].
Qed.

(** C9 (amended): every sequence of dispatcher calls returns, and after it
    [state.txmode] is 1 if the last dispatched mode among Transmit,
    Receive, Receive-continuous and channel-activity detection was
    Transmit, 0 if it was one of the other three, and unchanged if the
    sequence contains none of the four: the continuous-wave,
    clear-channel-assessment, Initialize, continuous-mode-transmit and Stop
    modes leave the flag as it was. *)
Theorem txmode_after_dispatches (ms : list u1_t) (w : world) :
  exists w',
    os_radio_seq ms w = Done tt w' /\
    txmode_tracks (last_assigning None ms)
      (txmode (state (mach w))) (txmode (state (mach w'))).
Proof.
  apply os_radio_seq_txmode. reflexivity.
Qed.

(** ** Further properties of radio.c *)

Lemma modes_apart :
  ~ In RADIO_STOP [RADIO_TX; RADIO_RX; RADIO_RXON; RADIO_TXCW; RADIO_CCA;
                   RADIO_INIT; RADIO_TXCONT; RADIO_CAD] /\
  ~ In RADIO_TX [RADIO_RX; RADIO_RXON; RADIO_TXCW; RADIO_CCA;
                 RADIO_INIT; RADIO_TXCONT; RADIO_CAD] /\
  ~ In RADIO_RX [RADIO_RXON; RADIO_TXCW; RADIO_CCA;
                 RADIO_INIT; RADIO_TXCONT; RADIO_CAD] /\
  ~ In RADIO_RXON [RADIO_TXCW; RADIO_CCA; RADIO_INIT; RADIO_TXCONT; RADIO_CAD] /\
  ~ In RADIO_TXCW [RADIO_CCA; RADIO_INIT; RADIO_TXCONT; RADIO_CAD] /\
  ~ In RADIO_CCA [RADIO_INIT; RADIO_TXCONT; RADIO_CAD] /\
  ~ In RADIO_INIT [RADIO_TXCONT; RADIO_CAD] /\
  ~ In RADIO_TXCONT [RADIO_CAD].
Proof.
  pose proof modes_distinct as H. unfold radio_modes in H.
  repeat match goal with
         | H : NoDup (_ :: _) |- _ =>
             let x := fresh "x" in let l := fresh "l" in
             let Hn := fresh "Hn" in let Hd := fresh "Hd" in
             inversion H as [| x l Hn Hd]; clear H; subst x l
         end.
  repeat split; assumption.
Qed.

Ltac modes_clash :=
  exfalso;
  let H := fresh "Hap" in
  pose proof modes_apart as H; cbn [In] in *; intuition congruence.

Ltac run_case :=
  first [ rewrite bind_radio_stop; run; unfold stopped; run; reflexivity
        | apply radio_stop_run
        | run; reflexivity ].

(** X1: dispatching a mode twice in a row, with the clock and [LMIC]
    unchanged in between, leaves the machine exactly as dispatching it
    once. *)
Theorem os_radio_twice (mode : u1_t) (w : world) :
  exists w1 w2,
    os_radio mode w = Done tt w1 /\
    os_radio mode w1 = Done tt w2 /\
    mach w2 = mach w1.
Proof.
  unfold os_radio. split_modes; eexists; eexists;
    (split; [run_case|]); (split; [run_case|]); reflexivity.
Qed.


(** X3: which dispatches leave a guard pending.  Transmit, scheduled
    Receive and channel-activity detection leave the guard timeout in the
    job slot; Stop, Receive-continuous, Continuous-wave, Clear-channel
    assessment and Continuous-mode transmit leave the slot empty, whatever
    was pending before; Initialize leaves the slot as it was, so a guard
    pending before it is still pending. *)
Theorem guard_after_dispatch (mode : u1_t) (w : world) :
  exists w',
    os_radio mode w = Done tt w' /\
    (In mode [RADIO_TX; RADIO_RX; RADIO_CAD] ->
     exists deadline, guard_armed deadline (mach w')) /\
    (In mode [RADIO_STOP; RADIO_RXON; RADIO_TXCW; RADIO_CCA; RADIO_TXCONT] ->
     pending (irqjob (state (mach w'))) = JobIdle) /\
    (mode = RADIO_INIT ->
     irqjob (state (mach w')) = irqjob (state (mach w))).
Proof.
  unfold os_radio. split_modes; eexists; (split; [run_case|]);
    unfold guard_armed; cbn [mach state irqjob pending with_hw];
    (split; [intros Hm; first [eexists; reflexivity | modes_clash]|]);
    (split; [intros Hm; first [reflexivity | modes_clash]|]);
    intros Hm; first [reflexivity | modes_clash].
Qed.

(** X4: an interrupt after a dispatch.  After any of the eight modes that
    begin with Stop/Reset the top half is accepted, from every starting
    state, and puts the bottom half into the job slot in place of a guard
    the dispatch armed.  After Initialize the top half halts in the failed
    assertion whenever an interrupt was captured before the dispatch. *)
Theorem interrupt_after_dispatch
    (mode mask : u1_t) (ticks : ostime_t) (w : world) :
  In mode radio_modes ->
  (mode <> RADIO_INIT ->
   exists w',
     (os_radio mode ;; radio_irq_handler mask ticks) w = Done tt w' /\
     irqtime (state (mach w')) = ticks /\
     diomask (state (mach w')) = mask /\
     irqjob (state (mach w')) = mk_osjob cb_radio_irq_func JobRunnable) /\
  (mode = RADIO_INIT -> diomask (state (mach w)) <> 0 ->
   exists w',
     (os_radio mode ;; radio_irq_handler mask ticks) w = Fatal w' /\
     state (mach w') = state (mach w)).
Proof.
  intros Hin. split.
  - intros Hne. unfold bind at 1.
    rewrite (os_radio_factor mode w Hin Hne).
    unfold os_radio_action. split_modes; eexists;
      (split; [run; reflexivity|]); repeat split; reflexivity.
  - intros -> Hbusy. neq_facts. unfold bind at 1. unfold os_radio.
    repeat match goal with
           | H : RADIO_INIT <> ?x |- context [Z.eqb RADIO_INIT ?x] =>
               rewrite (proj2 (Z.eqb_neq RADIO_INIT x) H)
           end.
    rewrite Z.eqb_refl. apply Z.eqb_neq in Hbusy.
    eexists. split; [run; rewrite Hbusy; reflexivity|].
    cbn [mach with_hw state]. reflexivity.
Qed.

(** X5: two interrupts with no bottom half in between.  When the first
    carried a non-zero line mask the second halts in the failed assertion
    and the halted machine still holds the time and mask of the first.
    When the first carried the line mask 0 the assertion does not fire:
    the second is accepted and overwrites the time of the first. *)
Theorem second_interrupt (m1 m2 : u1_t) (t1 t2 : ostime_t) (w : world) :
  diomask (state (mach w)) = 0 ->
  (m1 <> 0 ->
   (radio_irq_handler m1 t1 ;; radio_irq_handler m2 t2) w
   = Fatal (mk_world (captured m1 t1 (mach w))
                     (log w ++ top_half_trace m1 t1 ++ [Ev_hal_failed]))) /\
  (m1 = 0 ->
   (radio_irq_handler m1 t1 ;; radio_irq_handler m2 t2) w
   = Done tt (mk_world (captured m2 t2 (mach w))
                       (log w ++ top_half_trace 0 t1
                        ++ top_half_trace m2 t2))).
Proof.
  intros Hidle. split.
  - intros Hm. unfold bind at 1.
    rewrite (radio_irq_handler_run m1 t1 w Hidle).
    apply Z.eqb_neq in Hm. run. unfold captured. run. rewrite Hm.
    cbn [mach log]. unfold top_half_trace. norm_log. reflexivity.
  - intros ->. unfold bind at 1.
    rewrite (radio_irq_handler_run 0 t1 w Hidle).
    rewrite radio_irq_handler_run by reflexivity.
    unfold captured, top_half_trace. cbn [mach log state LMIC hw clock txmode].
    norm_log. reflexivity.
Qed.

(** X6: a timeout-eligible dispatch followed by its guard timeout returns
    the machine to idle: [state.diomask] 0, the job slot empty, the radio
    stopped (re-initialized after Transmit, asleep after Receive and
    channel-activity detection), [LMIC.dataLen] 0 and the upstream job
    runnable; [state.txmode] keeps the value the dispatch gave it. *)
Theorem timeout_after_dispatch (mode : u1_t) (w : world) :
  In mode [RADIO_TX; RADIO_RX; RADIO_CAD] ->
  exists w',
    (os_radio mode ;; radio_irq_timeout) w = Done tt w' /\
    state (mach w')
    = mk_state (irqtime (state (mach w)))
               (mk_osjob cb_radio_irq_timeout JobIdle)
               0
               (if mode =? RADIO_TX then 1 else 0) /\
    LMIC (mach w')
    = mk_lmic (mk_osjob (func (osjob (LMIC (mach w)))) JobRunnable)
              (rxtime (LMIC (mach w))) (rps (LMIC (mach w))) 0 /\
    hw (mach w')
    = mk_hw (if mode =? RADIO_TX then OpInit true else OpSleep)
            HAL_ANTSW_OFF 0 0 true.
Proof.
  intros Hin. neq_facts. cbn [In] in Hin.
  destruct Hin as [<- | [<- | [<- | []]]]; unfold bind at 1.
  - rewrite os_radio_TX_run, radio_irq_timeout_run.
    rewrite Z.eqb_refl. eexists. split; [reflexivity|].
    repeat split.
  - rewrite os_radio_RX_run, radio_irq_timeout_run.
    rewrite (proj2 (Z.eqb_neq RADIO_RX RADIO_TX)) by assumption.
    eexists. split; [reflexivity|]. repeat split.
  - rewrite os_radio_CAD_run, radio_irq_timeout_run.
    rewrite (proj2 (Z.eqb_neq RADIO_CAD RADIO_TX)) by assumption.
    eexists. split; [reflexivity|]. repeat split.
Qed.

Lemma guard_margin_split (a : Z) :
  0 <= a -> a * 110 < 2 ^ 31 ->
  guard_margin a = a + a / 10.
Proof.
  intros H0 H1. unfold guard_margin, ostime_div, ostime_mul.
  rewrite wrap32_small by lia.
  rewrite Z.quot_div_nonneg by lia.
  replace (a * 110) with (a * 100 + a * 10) by ring.
  rewrite Z.div_add_l by lia.
  replace 100 with (10 * 10) at 1 by reflexivity.
  rewrite Z.div_mul_cancel_r by lia. reflexivity.
Qed.

(** X7: the margin [airtime * 110 / 100] of the guard deadlines.  For an
    air time of [a >= 0] ticks whose product with 110 fits [ostime_t] it is
    [a] plus a tenth of [a] rounded down, it is never below [a], and it
    does not decrease when the air time grows. *)
Theorem guard_margin_exact (a b : Z) :
  0 <= a -> a <= b -> b * 110 < 2 ^ 31 ->
  guard_margin a = a + a / 10 /\
  a <= guard_margin a /\
  guard_margin a <= guard_margin b.
Proof.
  intros H0 Hab Hb.
  rewrite (guard_margin_split a) by lia.
  rewrite (guard_margin_split b) by lia.
  pose proof (Z.div_pos a 10 H0 ltac:(lia)).
  pose proof (Z.div_le_mono a b 10 ltac:(lia) Hab).
  repeat split; lia.
Qed.

Lemma guard_distance_aux (base over a : Z) :
  0 < over < 2 ^ 30 -> 0 <= a -> a * 110 < 2 ^ 31 ->
  wrap32 (ostime_add (ostime_add base over) (guard_margin a) - base)
  = over + a + a / 10 /\
  a < over + a + a / 10.
Proof.
  intros Ho H0 H1.
  rewrite guard_deadline_sum, guard_margin_split by assumption.
  unfold Z.sub. rewrite wrap32_add_l.
  replace (base + over + (a + a / 10) + - base) with (over + a + a / 10)
    by ring.
  pose proof (Z.div_pos a 10 H0 ltac:(lia)).
  assert (a / 10 <= a) by (apply Z.div_le_upper_bound; lia).
  split; [apply wrap32_small; lia | lia].
Qed.

(** X8: how far ahead the guard is armed, measured as the scheduler
    measures time, by the wrapped difference of tick counts.  For an air
    time [a] in range, Transmit arms the guard [ms2osticks 20 + a + a / 10]
    ticks after the current time, channel-activity detection
    [ms2osticks 10 + a + a / 10] ticks after it and scheduled Receive
    [ms2osticks 5 + a + a / 10] ticks after [LMIC.rxtime], also when the
    tick counter wraps around in between; each distance exceeds the air
    time. *)
Theorem guard_distance (w : world) :
  let a := LMIC_calcAirTime (rps (LMIC (mach w))) (dataLen (LMIC (mach w))) in
  let a255 := LMIC_calcAirTime (rps (LMIC (mach w))) 255 in
  (0 <= a -> a * 110 < 2 ^ 31 ->
   exists w' d,
     os_radio RADIO_TX w = Done tt w' /\
     guard_armed d (mach w') /\
     wrap32 (d - clock (mach w)) = ms2osticks 20 + a + a / 10 /\
     a < wrap32 (d - clock (mach w))) /\
  (0 <= a255 -> a255 * 110 < 2 ^ 31 ->
   exists w1 d1 w2 d2,
     os_radio RADIO_RX w = Done tt w1 /\
     guard_armed d1 (mach w1) /\
     wrap32 (d1 - rxtime (LMIC (mach w))) = ms2osticks 5 + a255 + a255 / 10 /\
     a255 < wrap32 (d1 - rxtime (LMIC (mach w))) /\
     os_radio RADIO_CAD w = Done tt w2 /\
     guard_armed d2 (mach w2) /\
     wrap32 (d2 - clock (mach w)) = ms2osticks 10 + a255 + a255 / 10 /\
     a255 < wrap32 (d2 - clock (mach w))).
Proof.
  intros a a255. split; intros H0 H1.
  - eexists. eexists. split; [apply os_radio_TX_run|].
    split; [reflexivity|]. fold a.
    destruct (guard_distance_aux (clock (mach w)) (ms2osticks 20) a
                ltac:(vm_compute; split; reflexivity) H0 H1)
      as [E L].
    rewrite E. split; [reflexivity | lia].
  - eexists. eexists. eexists. eexists.
    split; [apply os_radio_RX_run|]. split; [reflexivity|]. fold a255.
    destruct (guard_distance_aux (rxtime (LMIC (mach w))) (ms2osticks 5) a255
                ltac:(vm_compute; split; reflexivity) H0 H1)
      as [E L].
    rewrite E. split; [reflexivity|]. split; [lia|].
    split; [apply os_radio_CAD_run|]. split; [reflexivity|]. fold a255.
    destruct (guard_distance_aux (clock (mach w)) (ms2osticks 10) a255
                ltac:(vm_compute; split; reflexivity) H0 H1)
      as [E' L'].
    rewrite E'. split; [reflexivity | lia].
Qed.

Ltac emitted :=
  cbn [log mach];
  first [ norm_log; reflexivity
        | symmetry; apply app_nil_r ].

(** X9: the masking of interrupts over a call.  Every dispatch, for every
    mode value, disables and re-enables interrupts equally often; the guard
    timeout enables them once more than it disables them, which undoes the
    masking under which the scheduler starts a protected job. *)
Theorem irq_masking_depth (mode : u1_t) (w : world) :
  (exists w' es,
     os_radio mode w = Done tt w' /\
     log w' = log w ++ es /\
     irq_depth es = 0) /\
  (exists w' es,
     radio_irq_timeout w = Done tt w' /\
     log w' = log w ++ es /\
     irq_depth es = -1).
Proof.
  split.
  - unfold os_radio. split_modes; eexists; eexists;
      (split; [run_case|]); (split; [emitted|]); reflexivity.
  - eexists. eexists. split; [apply radio_irq_timeout_run|].
    split; [reflexivity|].
    unfold radio_irq_timeout_trace.
    destruct (txmode (state (mach w)) =? 0); reflexivity.
Qed.

(** X10: the dispatcher reports nothing to the MAC layer.  For every mode
    value and starting state, the effects of [os_radio] contain no
    scheduling of the upstream job, no assignment to [LMIC.dataLen] and no
    failed assertion, and the upstream job and [LMIC.dataLen] are as
    before: completion is reported by the bottom half and the guard
    timeout only. *)
Theorem os_radio_reports_nothing (mode : u1_t) (w : world) :
  exists w' es,
    os_radio mode w = Done tt w' /\
    log w' = log w ++ es /\
    forallb (fun e => negb (signals_upstream e || is_hal_failed e)) es = true /\
    osjob (LMIC (mach w')) = osjob (LMIC (mach w)) /\
    dataLen (LMIC (mach w')) = dataLen (LMIC (mach w)).
Proof.
  unfold os_radio. split_modes; eexists; eexists;
    (split; [run_case|]); (split; [emitted|]); repeat split.
Qed.

Lemma radio_irq_func_complete (w w1 : world) :
  radio_irq_process (irqtime (state (mach w))) (diomask (state (mach w))) w
  = Done true w1 ->
  radio_irq_func w
  = Done tt
      (mk_world (completed (mach w1))
         (log w1 ++ radio_stop_trace
          ++ [Ev_os_setCallback LMIC_osjob (func (osjob (LMIC (mach w1))));
              Ev_store state_diomask 0])).
Proof.
  intros Hp. unfold radio_irq_func. unfold bind at 1 2 3. unfold gets at 1 2.
  rewrite Hp. unfold bind at 1 2. rewrite radio_stop_run.
  run. unfold completed, stopped. run. norm_log. reflexivity.
Qed.

(** X11: an interrupt that completes the operation.  The top half followed
    by one scheduler step hands the captured time and line mask to the
    driver's classification; when that reports completion, the machine
    ends stopped, with [state.diomask] 0, the job slot empty and the
    upstream job runnable, and a further scheduler step finds nothing to
    run in the job slot. *)
Theorem interrupt_completes (mask : u1_t) (ticks : ostime_t) (w w2 : world) :
  diomask (state (mach w)) = 0 ->
  radio_irq_process ticks mask
    (mk_world (dequeued (captured mask ticks (mach w)))
              (log w ++ top_half_trace mask ticks))
  = Done true w2 ->
  exists w3,
    (radio_irq_handler mask ticks ;; os_runstep) w = Done tt w3 /\
    mach w3 = completed (mach w2) /\
    log w3 = log w2 ++ radio_stop_trace
             ++ [Ev_os_setCallback LMIC_osjob (func (osjob (LMIC (mach w2))));
                 Ev_store state_diomask 0] /\
    diomask (state (mach w3)) = 0 /\
    pending (irqjob (state (mach w3))) = JobIdle /\
    pending (osjob (LMIC (mach w3))) = JobRunnable /\
    os_runstep w3 = Done tt w3.
Proof.
  intros H0 Hp. eexists. split.
  - unfold bind at 1. rewrite (radio_irq_handler_run mask ticks w H0).
    rewrite os_runstep_bottom_half by reflexivity.
    exact (radio_irq_func_complete
             (mk_world (dequeued (captured mask ticks (mach w)))
                       (log w ++ top_half_trace mask ticks)) w2 Hp).
  - cbn [mach log]. repeat split.
Qed.

(** X12: an intermediate interrupt whose classification rewinds the guard.
    When the driver's classification, after whatever else it does, calls
    [radio_set_irq_timeout] with a new deadline and reports an intermediate
    interrupt, then after the top half and one scheduler step the guard is
    pending at the new deadline, [state.diomask] is 0 and the hardware is
    as the classification left it. *)
Theorem intermediate_interrupt_rearmed
    (mask : u1_t) (ticks deadline : ostime_t) (c : Cmd unit) (w wc : world) :
  diomask (state (mach w)) = 0 ->
  radio_irq_process ticks mask
    (mk_world (dequeued (captured mask ticks (mach w)))
              (log w ++ top_half_trace mask ticks))
  = (c ;; radio_set_irq_timeout deadline ;; ret false)
      (mk_world (dequeued (captured mask ticks (mach w)))
                (log w ++ top_half_trace mask ticks)) ->
  c (mk_world (dequeued (captured mask ticks (mach w)))
              (log w ++ top_half_trace mask ticks))
  = Done tt wc ->
  exists w3,
    (radio_irq_handler mask ticks ;; os_runstep) w = Done tt w3 /\
    guard_armed deadline (mach w3) /\
    diomask (state (mach w3)) = 0 /\
    hw (mach w3) = hw (mach wc) /\
    log w3 = log wc
             ++ [Ev_os_setProtectedTimedCallback state_irqjob deadline
                   cb_radio_irq_timeout;
                 Ev_store state_diomask 0].
Proof.
  intros H0 Hp Hc.
  unfold bind at 1 in Hp. rewrite Hc in Hp.
  eexists. split.
  - unfold bind at 1. rewrite (radio_irq_handler_run mask ticks w H0).
    rewrite os_runstep_bottom_half by reflexivity.
    exact (radio_irq_func_intermediate
             (mk_world (dequeued (captured mask ticks (mach w)))
                       (log w ++ top_half_trace mask ticks)) _ Hp).
  - unfold guard_armed. cbn [mach log state irqjob diomask hw put_job
                             with_state set_irqjob set_diomask].
    norm_log. repeat split.
Qed.

End Properties.

(** ** The properties at the sample configuration *)

#[local] Existing Instance sample_modes.
#[local] Existing Instance intermediate_driver.

Lemma sample_modes_distinct : NoDup radio_modes.
Proof.
  unfold radio_modes. cbn.
  repeat (constructor; [cbn [In]; intuition discriminate|]).
  constructor.
Qed.

Lemma os_radio_stop_first_witness :
  NoDup radio_modes /\
  In RADIO_TX radio_modes /\
  RADIO_TX <> RADIO_INIT /\
  exists w1,
    radio_stop captured_world = Done tt w1 /\
    diomask (state (mach w1)) = 0 /\
    log w1 = log captured_world ++ radio_stop_trace /\
    os_radio RADIO_TX captured_world = os_radio_action RADIO_TX w1.
Proof.
  assert (Hin : In RADIO_TX radio_modes) by (cbn; tauto).
  assert (Hne : RADIO_TX <> RADIO_INIT) by discriminate.
  split; [exact sample_modes_distinct|].
  split; [exact Hin|]. split; [exact Hne|].
  exact (proj1 (os_radio_stop_first sample_modes_distinct
                  RADIO_TX captured_world Hin) Hne).
Defined.

(** C1, counterexample: dispatched with [RADIO_INIT] while an interrupt is
    captured ([state.diomask = 4]), [os_radio] performs the single effect
    [radio_init(true)]; no Stop/Reset is run and [state.diomask] is still 4
    when the mode-specific action begins and when the call returns. *)
Lemma os_radio_init_without_stop :
  In RADIO_INIT radio_modes /\
  (exists w',
     os_radio RADIO_INIT captured_world = Done tt w' /\
     log w' = log captured_world ++ [Ev_radio_init true] /\
     diomask (state (mach w')) = 4) /\
  ~ (forall mode w, In mode radio_modes ->
       exists w' rest,
         os_radio mode w = Done tt w' /\
         log w' = log w ++ radio_stop_trace ++ rest).
Proof.
  split; [cbn; tauto|]. split.
  - eexists. split; [vm_compute; reflexivity|]. split; reflexivity.
  - intros H.
    destruct (H RADIO_INIT captured_world ltac:(cbn; tauto))
      as (w' & rest & Hrun & Hlog).
    vm_compute in Hrun. inversion Hrun; subst w'.
    cbn in Hlog. discriminate.
Qed.

Lemma os_radio_unknown_mode_witness :
  ~ In 9 radio_modes /\
  os_radio 9 captured_world = Done tt captured_world.
Proof.
  assert (Hout : ~ In 9 radio_modes) by (cbn; intuition discriminate).
  split; [exact Hout|].
  exact (os_radio_unknown_mode 9 captured_world Hout).
Defined.

Lemma guard_timeout_reinit_witness :
  NoDup radio_modes /\
  (RADIO_RX = RADIO_RX \/ RADIO_RX = RADIO_CAD) /\
  exists w1 w2,
    os_radio RADIO_RX boot_world = Done tt w1 /\
    txmode (state (mach w1)) = 0 /\
    radio_irq_timeout w1 = Done tt w2 /\
    mach w2 = timed_out (mach w1) /\
    radio (hw (mach w2)) = OpSleep /\
    log w2 = log w1 ++ radio_irq_timeout_trace 0 (cb_mac 1) /\
    (forall c, ~ In (Ev_radio_init c) (radio_irq_timeout_trace 0 (cb_mac 1))).
Proof.
  split; [exact sample_modes_distinct|].
  split; [left; reflexivity|].
  exact (proj1 (proj2 (guard_timeout_reinit sample_modes_distinct boot_world))
           RADIO_RX (or_introl eq_refl)).
Defined.

Lemma guard_deadline_formula_witness :
  NoDup radio_modes /\
  0 <= LMIC_calcAirTime 0 0 /\
  LMIC_calcAirTime 0 0 * 110 < 2 ^ 31 /\
  LMIC_calcAirTime 0 0 = ms2osticks 50 /\
  exists q w',
    tenth_more (LMIC_calcAirTime 0 0) q /\
    os_radio RADIO_TX boot_world = Done tt w' /\
    guard_armed (wrap32 (0 + ms2osticks 20 + q)) (mach w') /\
    guard_armed (wrap32 (0 + ms2osticks 75)) (mach w').
Proof.
  assert (H0 : 0 <= LMIC_calcAirTime 0 0) by (vm_compute; discriminate).
  assert (H1 : LMIC_calcAirTime 0 0 * 110 < 2 ^ 31) by (vm_compute; reflexivity).
  assert (H2 : LMIC_calcAirTime 0 0 = ms2osticks 50) by (vm_compute; reflexivity).
  split; [exact sample_modes_distinct|].
  split; [exact H0|]. split; [exact H1|]. split; [exact H2|].
  destruct (proj1 (guard_deadline_formula sample_modes_distinct boot_world)
              H0 H1) as (q & w' & Hq & Hrun & Hg & Hs).
  exists q, w'.
  split; [exact Hq|]. split; [exact Hrun|]. split; [exact Hg|].
  exact (Hs H2).
Defined.

Lemma radio_irq_handler_contract_witness :
  diomask (state (mach captured_world)) <> 0 /\
  radio_irq_handler 1 950 captured_world
  = Fatal (mk_world (mach captured_world) [Ev_hal_failed]) /\
  diomask (state (mach receiving_world)) = 0 /\
  radio_irq_handler 1 100 receiving_world
  = Done tt
      (mk_world
         (mk_machine
            (mk_state 100 (mk_osjob cb_radio_irq_func JobRunnable) 1 0)
            (LMIC (mach receiving_world)) (hw (mach receiving_world)) 0)
         [Ev_store state_irqtime 100; Ev_store state_diomask 1;
          Ev_os_setCallback state_irqjob cb_radio_irq_func]).
Proof.
  assert (Hbusy : diomask (state (mach captured_world)) <> 0) by discriminate.
  assert (Hidle : diomask (state (mach receiving_world)) = 0) by reflexivity.
  split; [exact Hbusy|].
  split; [exact (proj1 (radio_irq_handler_contract 1 950 captured_world) Hbusy)|].
  split; [exact Hidle|].
  exact (proj2 (radio_irq_handler_contract 1 100 receiving_world) Hidle).
Defined.

Lemma radio_irq_func_outcomes_witness :
  @radio_irq_process completing_driver 900 4 captured_world
  = Done true captured_world /\
  (exists w',
     @radio_irq_func completing_driver captured_world = Done tt w' /\
     log w' = radio_stop_trace
              ++ [Ev_os_setCallback LMIC_osjob (cb_mac 1);
                  Ev_store state_diomask 0] /\
     diomask (state (mach w')) = 0 /\
     pending (irqjob (state (mach w'))) = JobIdle /\
     osjob (LMIC (mach w')) = mk_osjob (cb_mac 1) JobRunnable /\
     hw (mach w') = hw (stopped (mach captured_world))) /\
  @radio_irq_process intermediate_driver 900 4 captured_world
  = Done false captured_world /\
  @radio_irq_func intermediate_driver captured_world
  = Done tt (mk_world (with_state (set_diomask 0) (mach captured_world))
                      [Ev_store state_diomask 0]).
Proof.
  assert (Ht : @radio_irq_process completing_driver 900 4 captured_world
               = Done true captured_world) by reflexivity.
  assert (Hf : @radio_irq_process intermediate_driver 900 4 captured_world
               = Done false captured_world) by reflexivity.
  split; [exact Ht|].
  split; [exact (proj1 (@radio_irq_func_outcomes completing_driver
                          captured_world captured_world true Ht) eq_refl)|].
  split; [exact Hf|].
  exact (proj2 (@radio_irq_func_outcomes intermediate_driver
                  captured_world captured_world false Hf) eq_refl).
Defined.

Lemma intermediate_interrupt_guard_witness :
  diomask (state (mach receiving_world)) = 0 /\
  radio_irq_process 100 1
    (mk_world (dequeued (captured 1 100 (mach receiving_world)))
              (log receiving_world ++ top_half_trace 1 100))
  = Done false
      (mk_world (dequeued (captured 1 100 (mach receiving_world)))
                (top_half_trace 1 100)) /\
  exists w1 w3,
    radio_irq_handler 1 100 receiving_world = Done tt w1 /\
    irqjob (state (mach w1)) = mk_osjob cb_radio_irq_func JobRunnable /\
    os_runstep w1 = Done tt w3 /\
    log w3 = top_half_trace 1 100 ++ [Ev_store state_diomask 0] /\
    irqjob (state (mach w3)) = mk_osjob cb_radio_irq_func JobIdle /\
    pending (irqjob (state (mach w3))) = JobIdle /\
    (forall deadline, ~ guard_armed deadline (mach w3)).
Proof.
  assert (H0 : diomask (state (mach receiving_world)) = 0) by reflexivity.
  assert (Hp : radio_irq_process 100 1
                 (mk_world (dequeued (captured 1 100 (mach receiving_world)))
                           (log receiving_world ++ top_half_trace 1 100))
               = Done false
                   (mk_world (dequeued (captured 1 100 (mach receiving_world)))
                             (top_half_trace 1 100))) by reflexivity.
  split; [exact H0|]. split; [exact Hp|].
  destruct (intermediate_interrupt_guard 1 100 receiving_world _ H0 Hp)
    as (w1 & w3 & Hh & Hj & Hr & Hl & Hs & Hn).
  exists w1, w3.
  split; [exact Hh|]. split; [exact Hj|]. split; [exact Hr|].
  split; [exact Hl|]. split; [exact Hs|].
  exact (Hn eq_refl).
Defined.

(** C7, counterexample: a scheduled receive is dispatched and its guard is
    armed at tick 3749.  One interrupt arrives at tick 100 and the driver's
    classification reports it as intermediate, arming nothing.  After the
    bottom half the job slot is empty, the radio is still receiving, and the
    guard of tick 3749 is no longer pending; when the clock reaches the
    original deadline, and long after it, the scheduler finds nothing to
    run: the operation is not force-terminated. *)
Lemma guard_lost_after_intermediate_interrupt :
  os_radio RADIO_RX boot_world
  = Done tt (mk_world (mach receiving_world)
               (radio_stop_trace
                ++ [Ev_debug_printf
                      "RX_MODE[freq=%.1F,sf=%d,bw=%s,rxtime=%.0F]\r\n";
                    Ev_radio_startrx false;
                    Ev_store state_txmode 0;
                    Ev_os_setProtectedTimedCallback state_irqjob 3749
                      cb_radio_irq_timeout])) /\
  guard_armed 3749 (mach receiving_world) /\
  (forall t, t = 3749 \/ t = 1000000 ->
     exists w',
       interrupt_then_silence intermediate_driver t receiving_world
       = Done tt w' /\
       log w' = top_half_trace 1 100 ++ [Ev_store state_diomask 0] /\
       radio (hw (mach w')) = OpRx false /\
       pending (irqjob (state (mach w'))) = JobIdle /\
       ~ guard_armed 3749 (mach w')).
Proof.
  split; [vm_compute; reflexivity|]. split; [reflexivity|].
  intros t [-> | ->]; eexists;
    (split; [vm_compute; reflexivity|]);
    (split; [reflexivity|]); (split; [reflexivity|]);
    (split; [reflexivity|]); intros G; discriminate G.
Qed.

Lemma txmode_after_dispatches_witness :
  NoDup radio_modes /\
  exists w',
    os_radio_seq [RADIO_TX; RADIO_CCA; RADIO_RX; RADIO_TXCONT] boot_world
    = Done tt w' /\
    txmode_tracks
      (last_assigning None [RADIO_TX; RADIO_CCA; RADIO_RX; RADIO_TXCONT])
      (txmode (state (mach boot_world))) (txmode (state (mach w'))).
Proof.
  split; [exact sample_modes_distinct|].
  exact (txmode_after_dispatches sample_modes_distinct
           [RADIO_TX; RADIO_CCA; RADIO_RX; RADIO_TXCONT] boot_world).
Defined.

(** C9, counterexample: after Transmit followed by clear-channel
    assessment the flag is 1 although the operation started last is the
    assessment; after scheduled Receive followed by continuous-mode
    transmit the flag is 0 although the operation started last is a
    transmission. *)
Lemma txmode_not_last_operation :
  (exists w',
     os_radio_seq [RADIO_TX; RADIO_CCA] boot_world = Done tt w' /\
     radio (hw (mach w')) = OpCca /\
     txmode (state (mach w')) = 1 /\
     ~ (txmode (state (mach w')) <> 0
        <-> transmitting (radio (hw (mach w'))) = true)) /\
  (exists w',
     os_radio_seq [RADIO_RX; RADIO_TXCONT] boot_world = Done tt w' /\
     radio (hw (mach w')) = OpTx true /\
     txmode (state (mach w')) = 0 /\
     ~ (txmode (state (mach w')) <> 0
        <-> transmitting (radio (hw (mach w'))) = true)).
Proof.
  split; eexists;
    (split; [vm_compute; reflexivity|]);
    (split; [reflexivity|]); (split; [reflexivity|]); cbn.
  - intros [H _]. assert (false = true) by (apply H; discriminate).
    discriminate.
  - intros [_ H]. apply H; reflexivity.
Qed.


Lemma guard_after_dispatch_witness :
  NoDup radio_modes /\
  In RADIO_TXCW [RADIO_STOP; RADIO_RXON; RADIO_TXCW; RADIO_CCA; RADIO_TXCONT] /\
  exists w',
    os_radio RADIO_TXCW receiving_world = Done tt w' /\
    pending (irqjob (state (mach w'))) = JobIdle.
Proof.
  assert (Hin : In RADIO_TXCW
                  [RADIO_STOP; RADIO_RXON; RADIO_TXCW; RADIO_CCA; RADIO_TXCONT])
    by (cbn; tauto).
  split; [exact sample_modes_distinct|]. split; [exact Hin|].
  destruct (guard_after_dispatch sample_modes_distinct RADIO_TXCW
              receiving_world) as (w' & Hrun & _ & Hidle & _).
  exists w'. split; [exact Hrun | exact (Hidle Hin)].
Defined.

Lemma interrupt_after_dispatch_witness :
  NoDup radio_modes /\
  In RADIO_RX radio_modes /\
  RADIO_RX <> RADIO_INIT /\
  (exists w',
     (os_radio RADIO_RX ;; radio_irq_handler 1 100) captured_world
     = Done tt w' /\
     irqtime (state (mach w')) = 100 /\
     diomask (state (mach w')) = 1 /\
     irqjob (state (mach w')) = mk_osjob cb_radio_irq_func JobRunnable) /\
  In RADIO_INIT radio_modes /\
  diomask (state (mach captured_world)) <> 0 /\
  (exists w',
     (os_radio RADIO_INIT ;; radio_irq_handler 1 100) captured_world
     = Fatal w' /\
     state (mach w') = state (mach captured_world)).
Proof.
  assert (Hrx : In RADIO_RX radio_modes) by (cbn; tauto).
  assert (Hne : RADIO_RX <> RADIO_INIT) by discriminate.
  assert (Hinit : In RADIO_INIT radio_modes) by (cbn; tauto).
  assert (Hbusy : diomask (state (mach captured_world)) <> 0) by discriminate.
  split; [exact sample_modes_distinct|].
  split; [exact Hrx|]. split; [exact Hne|].
  split; [exact (proj1 (interrupt_after_dispatch sample_modes_distinct
                          RADIO_RX 1 100 captured_world Hrx) Hne)|].
  split; [exact Hinit|]. split; [exact Hbusy|].
  exact (proj2 (interrupt_after_dispatch sample_modes_distinct
                  RADIO_INIT 1 100 captured_world Hinit) eq_refl Hbusy).
Defined.

Lemma second_interrupt_witness :
  diomask (state (mach receiving_world)) = 0 /\
  (radio_irq_handler 1 100 ;; radio_irq_handler 2 110) receiving_world
  = Fatal (mk_world (captured 1 100 (mach receiving_world))
                    (top_half_trace 1 100 ++ [Ev_hal_failed])) /\
  (radio_irq_handler 0 100 ;; radio_irq_handler 2 110) receiving_world
  = Done tt (mk_world (captured 2 110 (mach receiving_world))
                      (top_half_trace 0 100 ++ top_half_trace 2 110)).
Proof.
  assert (Hidle : diomask (state (mach receiving_world)) = 0) by reflexivity.
  split; [exact Hidle|].
  split.
  - exact (proj1 (second_interrupt 1 2 100 110 receiving_world Hidle)
             ltac:(discriminate)).
  - exact (proj2 (second_interrupt 0 2 100 110 receiving_world Hidle)
             eq_refl).
Defined.

Lemma timeout_after_dispatch_witness :
  NoDup radio_modes /\
  In RADIO_TX [RADIO_TX; RADIO_RX; RADIO_CAD] /\
  exists w',
    (os_radio RADIO_TX ;; radio_irq_timeout) stale_world = Done tt w' /\
    state (mach w') = mk_state 0 (mk_osjob cb_radio_irq_timeout JobIdle) 0 1 /\
    LMIC (mach w') = mk_lmic (mk_osjob (cb_mac 1) JobRunnable) 0 0 0 /\
    hw (mach w') = mk_hw (OpInit true) HAL_ANTSW_OFF 0 0 true.
Proof.
  assert (Hin : In RADIO_TX [RADIO_TX; RADIO_RX; RADIO_CAD]) by (cbn; tauto).
  split; [exact sample_modes_distinct|]. split; [exact Hin|].
  exact (timeout_after_dispatch sample_modes_distinct RADIO_TX
           stale_world Hin).
Defined.

Lemma guard_margin_exact_witness :
  0 <= 3125 /\ 3125 <= 3126 /\ 3126 * 110 < 2 ^ 31 /\
  guard_margin 3125 = 3125 + 3125 / 10 /\
  3125 <= guard_margin 3125 /\
  guard_margin 3125 <= guard_margin 3126.
Proof.
  assert (H0 : 0 <= 3125) by (vm_compute; discriminate).
  assert (H1 : 3125 <= 3126) by (vm_compute; discriminate).
  assert (H2 : 3126 * 110 < 2 ^ 31) by (vm_compute; reflexivity).
  split; [exact H0|]. split; [exact H1|]. split; [exact H2|].
  exact (guard_margin_exact 3125 3126 H0 H1 H2).
Defined.

Lemma guard_distance_witness :
  NoDup radio_modes /\
  0 <= LMIC_calcAirTime 0 0 /\
  LMIC_calcAirTime 0 0 * 110 < 2 ^ 31 /\
  exists w' d,
    os_radio RADIO_TX boot_world = Done tt w' /\
    guard_armed d (mach w') /\
    wrap32 (d - 0) = ms2osticks 20 + 3125 + 3125 / 10 /\
    3125 < wrap32 (d - 0).
Proof.
  assert (H0 : 0 <= LMIC_calcAirTime 0 0) by (vm_compute; discriminate).
  assert (H1 : LMIC_calcAirTime 0 0 * 110 < 2 ^ 31) by (vm_compute; reflexivity).
  split; [exact sample_modes_distinct|]. split; [exact H0|]. split; [exact H1|].
  exact (proj1 (guard_distance sample_modes_distinct boot_world) H0 H1).
Defined.

Lemma interrupt_completes_witness :
  diomask (state (mach receiving_world)) = 0 /\
  @radio_irq_process completing_driver 100 1
    (mk_world (dequeued (captured 1 100 (mach receiving_world)))
              (log receiving_world ++ top_half_trace 1 100))
  = Done true
      (mk_world (dequeued (captured 1 100 (mach receiving_world)))
                (top_half_trace 1 100)) /\
  exists w3,
    (radio_irq_handler 1 100 ;; @os_runstep completing_driver) receiving_world
    = Done tt w3 /\
    mach w3 = completed (dequeued (captured 1 100 (mach receiving_world))) /\
    log w3 = top_half_trace 1 100 ++ radio_stop_trace
             ++ [Ev_os_setCallback LMIC_osjob (cb_mac 1);
                 Ev_store state_diomask 0] /\
    diomask (state (mach w3)) = 0 /\
    pending (irqjob (state (mach w3))) = JobIdle /\
    pending (osjob (LMIC (mach w3))) = JobRunnable /\
    @os_runstep completing_driver w3 = Done tt w3.
Proof.
  assert (H0 : diomask (state (mach receiving_world)) = 0) by reflexivity.
  assert (Hp : @radio_irq_process completing_driver 100 1
                 (mk_world (dequeued (captured 1 100 (mach receiving_world)))
                           (log receiving_world ++ top_half_trace 1 100))
               = Done true
                   (mk_world (dequeued (captured 1 100 (mach receiving_world)))
                             (top_half_trace 1 100))) by reflexivity.
  split; [exact H0|]. split; [exact Hp|].
  exact (@interrupt_completes completing_driver 1 100 receiving_world _ H0 Hp).
Defined.

Lemma intermediate_interrupt_rearmed_witness :
  diomask (state (mach receiving_world)) = 0 /\
  @radio_irq_process rearming_driver 100 1
    (mk_world (dequeued (captured 1 100 (mach receiving_world)))
              (log receiving_world ++ top_half_trace 1 100))
  = (ret tt ;; radio_set_irq_timeout 2100 ;; ret false)
      (mk_world (dequeued (captured 1 100 (mach receiving_world)))
                (log receiving_world ++ top_half_trace 1 100)) /\
  exists w3,
    (radio_irq_handler 1 100 ;; @os_runstep rearming_driver) receiving_world
    = Done tt w3 /\
    guard_armed 2100 (mach w3) /\
    diomask (state (mach w3)) = 0 /\
    hw (mach w3) = hw (mach receiving_world) /\
    log w3 = top_half_trace 1 100
             ++ [Ev_os_setProtectedTimedCallback state_irqjob 2100
                   cb_radio_irq_timeout;
                 Ev_store state_diomask 0].
Proof.
  assert (H0 : diomask (state (mach receiving_world)) = 0) by reflexivity.
  assert (Hp : @radio_irq_process rearming_driver 100 1
                 (mk_world (dequeued (captured 1 100 (mach receiving_world)))
                           (log receiving_world ++ top_half_trace 1 100))
               = (ret tt ;; radio_set_irq_timeout 2100 ;; ret false)
                   (mk_world (dequeued (captured 1 100 (mach receiving_world)))
                             (log receiving_world ++ top_half_trace 1 100)))
    by reflexivity.
  split; [exact H0|]. split; [exact Hp|].
  exact (@intermediate_interrupt_rearmed rearming_driver 1 100 2100 (ret tt)
           receiving_world _ H0 Hp eq_refl).
Defined.
